(** * restful-api-node: a shallow embedding of the user CRUD service

    The development follows the layout of the repository:
    - [JS]: the JavaScript primitives the sources rely on (string
      methods, the value of numeric strings, [isNaN], [parseInt],
      [decodeURIComponent]);
    - [Zod]: the validation library as used by [utils/globalZodSchema.js];
    - [userSchema] and [formatZodError]: the two files under [utils];
    - [Prisma]: the persistence client the controller talks to;
    - [UserController]: the six request handlers;
    - [Routes]: [routes/userRoutes.js].

    Strings are Rocq strings; one character stands for one UTF-16 code
    unit below 256 (Latin-1), which is enough for every literal of the
    sources. *)

From Stdlib Require Import ZArith Ascii String List Bool Lia.
From stdpp Require Import gmap strings list fin_maps.

Local Open Scope string_scope.
Local Open Scope Z_scope.

(* ===================================================================== *)
(** ** JavaScript primitives *)
(* ===================================================================== *)

Module JS.

Definition code (c : ascii) : Z := Z.of_N (N_of_ascii c).

Definition between (lo hi : Z) (c : ascii) : bool :=
  (lo <=? code c) && (code c <=? hi).

(** WhiteSpace and LineTerminator code units below 256: TAB, LF, VT, FF,
    CR, SP and NBSP. *)
Definition isWhiteSpace (c : ascii) : bool :=
  between 9 13 c || (code c =? 32) || (code c =? 160).

Fixpoint trimStart (s : string) : string :=
  match s with
  | EmptyString => EmptyString
  | String c r => if isWhiteSpace c then trimStart r else s
  end.

Fixpoint trimEnd (s : string) : string :=
  match s with
  | EmptyString => EmptyString
  | String c r =>
      match trimEnd r with
      | EmptyString => if isWhiteSpace c then EmptyString else String c EmptyString
      | r' => String c r'
      end
  end.

(** [String.prototype.trim] *)
Definition trim (s : string) : string := trimEnd (trimStart s).

(** Lower-casing of one code unit: A-Z, and the Latin-1 capitals
    U+00C0..U+00DE except the multiplication sign U+00D7. *)
Definition lowerChar (c : ascii) : ascii :=
  if between 65 90 c || (between 192 222 c && negb (code c =? 215))
  then ascii_of_N (N_of_ascii c + 32)
  else c.

(** [String.prototype.toLowerCase] *)
Fixpoint toLowerCase (s : string) : string :=
  match s with
  | EmptyString => EmptyString
  | String c r => String (lowerChar c) (toLowerCase r)
  end.

(** [Array.prototype.join] on an array of strings. *)
Fixpoint join (sep : string) (l : list string) : string :=
  match l with
  | [] => ""
  | [x] => x
  | x :: rest => x +:+ sep +:+ join sep rest
  end.

(** [String.prototype.includes]: [q] occurs in [s] as a substring. *)
Fixpoint includes (s q : string) : bool :=
  String.prefix q s ||
  match s with
  | EmptyString => false
  | String _ r => includes r q
  end.

(** Truthiness of a value that is a string or [undefined]. *)
Definition truthy (v : option string) : bool :=
  match v with
  | Some (String _ _) => true
  | _ => false
  end.

(** *** Digits *)

Definition isDigit (c : ascii) : bool := between 48 57 c.

(** The value of a digit in radix up to 16; [None] when [c] is no digit. *)
Definition digitValue (c : ascii) : option Z :=
  if between 48 57 c then Some (code c - 48)
  else if between 97 102 c then Some (code c - 87)
  else if between 65 70 c then Some (code c - 55)
  else None.

Definition isRadixDigit (R : Z) (c : ascii) : bool :=
  match digitValue c with
  | Some d => d <? R
  | None => false
  end.

(** The longest prefix of [s] made of characters satisfying [p], and
    the rest. *)
Fixpoint span (p : ascii -> bool) (s : string) : string * string :=
  match s with
  | EmptyString => (EmptyString, EmptyString)
  | String c r =>
      if p c then let '(a, b) := span p r in (String c a, b)
      else (EmptyString, s)
  end.

(** The mathematical value of a digit string in radix [R], most
    significant digit first, on top of the accumulator [acc]. *)
Fixpoint radixValueFrom (R : Z) (acc : Z) (s : string) : Z :=
  match s with
  | EmptyString => acc
  | String c r =>
      radixValueFrom R (acc * R + match digitValue c with Some d => d | None => 0 end) r
  end.

Definition radixValue (R : Z) (s : string) : Z := radixValueFrom R 0 s.

Definition isEmpty (s : string) : bool :=
  match s with EmptyString => true | _ => false end.

Fixpoint allChars (p : ascii -> bool) (s : string) : bool :=
  match s with
  | EmptyString => true
  | String c r => p c && allChars p r
  end.

(** [s.split(sep)] for a one-character separator. *)
Fixpoint splitOn (sep : ascii) (s : string) : list string :=
  match s with
  | EmptyString => [EmptyString]
  | String c r =>
      if Ascii.eqb c sep then EmptyString :: splitOn sep r
      else
        match splitOn sep r with
        | [] => [String c EmptyString]
        | h :: t => String c h :: t
        end
  end.

(** *** The value of a numeric string

    The mathematical value of a StringNumericLiteral, kept exactly as
    sign, decimal mantissa and decimal exponent: [Fin neg m e] is
    (-1)^neg * m * 10^e with [0 <= m]; [NaN] stands for a string that is
    no such literal.  [Number(s)] is this value rounded to a double.
    The rounding is not modelled: it turns no value into NaN and NaN
    into no value, and the handlers ask nothing of [Number(s)] but
    whether it is NaN. *)
Inductive LiteralValue :=
| NaN
| Inf (neg : bool)
| Fin (neg : bool) (mant : Z) (exp10 : Z).

Definition eqChar (a b : ascii) : bool := Ascii.eqb a b.

(** ExponentPart_opt, which has to reach the end of the literal. *)
Definition exponentPart (s : string) : option Z :=
  match s with
  | EmptyString => Some 0
  | String c r =>
      if eqChar c "e" || eqChar c "E" then
        let '(sg, r') :=
          match r with
          | String c' t =>
              if eqChar c' "+" then (1, t)
              else if eqChar c' "-" then (-1, t)
              else (1, r)
          | EmptyString => (1, r)
          end in
        let '(ds, rest) := span isDigit r' in
        if negb (isEmpty ds) && isEmpty rest then Some (sg * radixValue 10 ds)
        else None
      else None
  end.

(** StrUnsignedDecimalLiteral *)
Definition strUnsignedDecimalLiteral (s : string) : LiteralValue :=
  if String.eqb s "Infinity" then Inf false
  else
    let '(ip, r1) := span isDigit s in
    let integral :=
      if isEmpty ip then NaN
      else
        match exponentPart r1 with
        | Some e => Fin false (radixValue 10 ip) e
        | None => NaN
        end in
    match r1 with
    | String c r2 =>
        if eqChar c "." then
          let '(fp, r3) := span isDigit r2 in
          if isEmpty ip && isEmpty fp then NaN
          else
            match exponentPart r3 with
            | Some e =>
                Fin false (radixValue 10 (ip +:+ fp)) (e - Z.of_nat (String.length fp))
            | None => NaN
            end
        else integral
    | EmptyString => integral
    end.

Definition negate (n : LiteralValue) : LiteralValue :=
  match n with
  | NaN => NaN
  | Inf b => Inf (negb b)
  | Fin b m e => Fin (negb b) m e
  end.

(** StrDecimalLiteral: an optional sign, then the unsigned literal. *)
Definition strDecimalLiteral (s : string) : LiteralValue :=
  match s with
  | String c r =>
      if eqChar c "+" then strUnsignedDecimalLiteral r
      else if eqChar c "-" then negate (strUnsignedDecimalLiteral r)
      else strUnsignedDecimalLiteral s
  | EmptyString => strUnsignedDecimalLiteral s
  end.

(** NonDecimalIntegerLiteral: 0x, 0o and 0b literals, in either case. *)
Definition nonDecimalIntegerLiteral (s : string) : option Z :=
  match s with
  | String c (String p r) =>
      let R :=
        if eqChar p "x" || eqChar p "X" then 16
        else if eqChar p "o" || eqChar p "O" then 8
        else if eqChar p "b" || eqChar p "B" then 2
        else 0 in
      if negb (eqChar c "0") || (R =? 0) then None
      else
        let '(ds, rest) := span (isRadixDigit R) r in
        if negb (isEmpty ds) && isEmpty rest then Some (radixValue R ds) else None
  | _ => None
  end.

(** The mathematical value of a string read as StringNumericLiteral:
    white space around it is dropped, and the empty string is 0. *)
Definition mathematicalValue (s : string) : LiteralValue :=
  let t := trim s in
  if isEmpty t then Fin false 0 0
  else
    match nonDecimalIntegerLiteral t with
    | Some n => Fin false n 0
    | None => strDecimalLiteral t
    end.

(** [isNaN(v)] for a value that is a string or [undefined]:
    [Number(v)] is NaN exactly when the string is no numeric literal. *)
Definition isNaN (v : option string) : bool :=
  match v with
  | None => true
  | Some s => match mathematicalValue s with NaN => true | _ => false end
  end.

(** An integer-valued double, or an infinity. *)
Inductive Integral :=
| Finite (n : Z)
| Infinite (neg : bool).

(** The double nearest to a natural number, ties to the even mantissa:
    exact below 2^53; above, the 53 leading bits are kept and the rest
    is rounded; from 2^1024 on the result is infinite. *)
Definition roundNatural (a : Z) : Integral :=
  if a <? 2 ^ 53 then Finite a
  else
    let k := Z.log2 a - 52 in
    let q := a / 2 ^ k in
    let r := a mod 2 ^ k in
    let half := 2 ^ (k - 1) in
    let q' := if (half <? r) || ((r =? half) && Z.odd q) then q + 1 else q in
    if 2 ^ 1024 <=? q' * 2 ^ k then Infinite false else Finite (q' * 2 ^ k).

(** The double nearest to an integer (the sign of a zero is not kept). *)
Definition toDouble (n : Z) : Integral :=
  if n <? 0 then
    match roundNatural (- n) with
    | Finite m => Finite (- m)
    | Infinite _ => Infinite true
    end
  else roundNatural n.

(** [parseInt(v)] without radix; [None] is NaN.  Leading white space is
    skipped, a sign is read, a 0x prefix selects radix 16, and the
    longest run of digits is converted; whatever follows is ignored.
    The result is the double nearest to the integer the digits denote. *)
Definition parseInt (v : option string) : option Integral :=
  match v with
  | None => None
  | Some str =>
      let S0 := trimStart str in
      let '(sign, S1) :=
        match S0 with
        | String c r =>
            if eqChar c "-" then (-1, r)
            else if eqChar c "+" then (1, r)
            else (1, S0)
        | EmptyString => (1, S0)
        end in
      let '(R, S2) :=
        match S1 with
        | String c (String p r) =>
            if eqChar c "0" && (eqChar p "x" || eqChar p "X") then (16, r)
            else (10, S1)
        | _ => (10, S1)
        end in
      let '(Zs, _) := span (isRadixDigit R) S2 in
      if isEmpty Zs then None else Some (toDouble (sign * radixValue R Zs))
  end.

(** A finite value is an integer when its fractional digits are zero;
    [truncate] drops them (rounding toward zero), keeping the sign. *)
Definition isInteger (n : LiteralValue) : bool :=
  match n with
  | Fin _ m e => (0 <=? e) || (m mod 10 ^ (- e) =? 0)
  | _ => false
  end.

Definition truncate (n : LiteralValue) : option Z :=
  match n with
  | Fin neg m e =>
      let a := if 0 <=? e then m * 10 ^ e else m / 10 ^ (- e) in
      Some (if neg then - a else a)
  | _ => None
  end.

(** *** [decodeURIComponent]

    An escape is a percent sign and two hexadecimal digits.  Escapes
    are read as the bytes of UTF-8; a character that is no percent sign
    stands for itself. *)
Inductive Token :=
| Raw (c : ascii)
| Esc (byte : Z)
| Bad.

Fixpoint tokens (s : string) : list Token :=
  match s with
  | EmptyString => []
  | String c r =>
      if eqChar c "%" then
        match r with
        | String h1 (String h2 r') =>
            match digitValue h1, digitValue h2 with
            | Some a, Some b => Esc (16 * a + b) :: tokens r'
            | _, _ => [Bad]
            end
        | _ => [Bad]
        end
      else Raw c :: tokens r
  end.

(** The outcome of decoding: the decoded string; [Malformed] when the
    engine throws URIError; [Beyond] when the text is well formed but
    has a character above U+00FF, which the strings of this development
    do not have. *)
Inductive Decoding :=
| Decoded (s : string)
| Malformed
| Beyond.

Definition charOf (cp : Z) : ascii := ascii_of_N (Z.to_N cp).

Definition consChar (cp : Z) (d : Decoding) : Decoding :=
  match d with
  | Decoded s => Decoded (String (charOf cp) s)
  | other => other
  end.

Definition beyond (d : Decoding) : Decoding :=
  match d with
  | Malformed => Malformed
  | _ => Beyond
  end.

Definition inRange (lo hi b : Z) : bool := (lo <=? b) && (b <=? hi).

(** The bytes of one character, by the table of well-formed UTF-8. *)
Fixpoint decodeTokens (ts : list Token) : Decoding :=
  match ts with
  | [] => Decoded EmptyString
  | Bad :: _ => Malformed
  | Raw c :: rest => consChar (code c) (decodeTokens rest)
  | Esc b :: rest =>
      if b <? 128 then consChar b (decodeTokens rest)
      else if inRange 194 223 b then
        match rest with
        | Esc c1 :: rest' =>
            if inRange 128 191 c1 then
              if b <=? 195 then consChar ((b - 192) * 64 + (c1 - 128)) (decodeTokens rest')
              else beyond (decodeTokens rest')
            else Malformed
        | _ => Malformed
        end
      else if inRange 224 239 b then
        match rest with
        | Esc c1 :: Esc c2 :: rest' =>
            if inRange (if b =? 224 then 160 else 128) (if b =? 237 then 159 else 191) c1
               && inRange 128 191 c2
            then beyond (decodeTokens rest')
            else Malformed
        | _ => Malformed
        end
      else if inRange 240 244 b then
        match rest with
        | Esc c1 :: Esc c2 :: Esc c3 :: rest' =>
            if inRange (if b =? 240 then 144 else 128) (if b =? 244 then 143 else 191) c1
               && inRange 128 191 c2 && inRange 128 191 c3
            then beyond (decodeTokens rest')
            else Malformed
        | _ => Malformed
        end
      else Malformed
  end.

Definition decodeURIComponent (s : string) : Decoding := decodeTokens (tokens s).

End JS.

(* ===================================================================== *)
(** ** JavaScript values: request bodies and query parameters *)
(* ===================================================================== *)

#[local] Set Warnings "-register-all".

Inductive JsValue :=
| JUndefined
| JNull
| JBool (b : bool)
| JNum (n : Z)
| JStr (s : string)
| JArr (items : list JsValue)
| JObj (props : list (string * JsValue)).

(** An object literal: the properties in insertion order. *)
Abbreviation JsObject := (list (string * JsValue)).

Module Value.

(** [obj[key]]: the property, or [undefined]. *)
Fixpoint get (props : JsObject) (key : string) : JsValue :=
  match props with
  | [] => JUndefined
  | (k, v) :: rest => if String.eqb k key then v else get rest key
  end.

Definition keys (props : JsObject) : list string := map fst props.

(** ToBoolean *)
Definition truthy (v : JsValue) : bool :=
  match v with
  | JUndefined | JNull => false
  | JBool b => b
  | JNum n => negb (n =? 0)
  | JStr s => negb (JS.isEmpty s)
  | JArr _ | JObj _ => true
  end.

Definition isString (v : JsValue) : bool :=
  match v with JStr _ => true | _ => false end.

End Value.

(* ===================================================================== *)
(** ** zod, as far as [userSchema] uses it (zod 3) *)
(* ===================================================================== *)

Module Zod.

Inductive IssueCode := invalid_type | too_small | invalid_string.

Record ZodIssue := {
  code : IssueCode;
  path : list string;
  message : string
}.

(** A [ZodError] is its list of issues. *)
Abbreviation ZodError := (list ZodIssue).

(** The name zod gives to the type of a received value. *)
Definition getParsedType (v : JsValue) : string :=
  match v with
  | JUndefined => "undefined"
  | JNull => "null"
  | JBool _ => "boolean"
  | JNum _ => "number"
  | JStr _ => "string"
  | JArr _ => "array"
  | JObj _ => "object"
  end.

(** The default error map, for an [invalid_type] issue. *)
Definition invalidTypeMessage (expected : string) (received : JsValue) : string :=
  match received with
  | JUndefined => "Required"
  | _ => "Expected " +:+ expected +:+ ", received " +:+ getParsedType received
  end.

(** The checks chained on [z.string()]. *)
Inductive StringCheck :=
| CheckMin (value : nat) (msg : string)
| CheckEmail (msg : string).

(** *** The email pattern

    Case-insensitive, anchored at both ends.  The address does not start
    with a dot and has no two dots in a row.  The local part is a
    non-empty run of letters, digits, underscore, apostrophe, plus, minus
    and dot whose last character is no apostrophe and no dot.  After the
    at-sign come one or more labels, each a letter or digit followed by
    letters, digits and minus and closed by a dot, and then a top-level
    name of two or more letters. *)

Definition isLetter (c : ascii) : bool := JS.between 65 90 c || JS.between 97 122 c.
Definition isAlnum (c : ascii) : bool := isLetter c || JS.isDigit c.

Definition oneOf (cs : string) (c : ascii) : bool :=
  existsb (Ascii.eqb c) (list_ascii_of_string cs).

Definition localChar (c : ascii) : bool := isAlnum c || oneOf "_'+-." c.
Definition localLast (c : ascii) : bool := isAlnum c || oneOf "_+-" c.
Definition labelChar (c : ascii) : bool := isAlnum c || oneOf "-" c.

Fixpoint lastChar (s : string) : option ascii :=
  match s with
  | EmptyString => None
  | String c EmptyString => Some c
  | String _ r => lastChar r
  end.

Definition isLocalPart (s : string) : bool :=
  JS.allChars localChar s &&
  match lastChar s with Some c => localLast c | None => false end.

Definition isLabel (s : string) : bool :=
  match s with
  | EmptyString => false
  | String c r => isAlnum c && JS.allChars labelChar r
  end.

Definition isTopLevel (s : string) : bool :=
  (2 <=? String.length s)%nat && JS.allChars isLetter s.

Fixpoint isDomainParts (parts : list string) : bool :=
  match parts with
  | [] => false
  | [_] => false
  | [l; tld] => isLabel l && isTopLevel tld
  | l :: rest => isLabel l && isDomainParts rest
  end.

Definition isEmail (s : string) : bool :=
  negb (String.prefix "." s) &&
  negb (JS.includes s "..") &&
  match JS.splitOn "@" s with
  | [loc; dom] => isLocalPart loc && isDomainParts (JS.splitOn "." dom)
  | _ => false
  end.

(** *** Parsing *)

(** One check of a string schema against a string: the issue it adds. *)
Definition runCheck (path : list string) (data : string) (c : StringCheck)
  : list ZodIssue :=
  match c with
  | CheckMin value msg =>
      if (String.length data <? value)%nat
      then [{| code := too_small; path := path; message := msg |}]
      else []
  | CheckEmail msg =>
      if isEmail data then []
      else [{| code := invalid_string; path := path; message := msg |}]
  end.

(** [ZodString._parse]: a value that is no string gives one
    [invalid_type] issue and no check runs; on a string every check
    runs and each failing one adds its issue. *)
Definition parseString (checks : list StringCheck) (path : list string)
  (input : JsValue) : list ZodIssue :=
  match input with
  | JStr data => flat_map (runCheck path data) checks
  | _ => [{| code := invalid_type; path := path;
             message := invalidTypeMessage "string" input |}]
  end.

(** [z.object(shape)] whose fields are all string schemas. *)
Abbreviation ObjectShape := (list (string * list StringCheck)).

Inductive SafeParseResult :=
| Success (data : JsObject)
| Failure (error : ZodError).

(** [ZodObject._parse]: an input that is not a plain object gives one
    [invalid_type] issue at the root.  Otherwise each key of the shape is
    parsed in turn, all issues are collected, and the output keeps the
    keys of the shape only (unknown keys are stripped). *)
Definition safeParse (shape : ObjectShape) (input : JsValue) : SafeParseResult :=
  match input with
  | JObj props =>
      let issues :=
        flat_map (fun '(key, checks) => parseString checks [key] (Value.get props key))
                 shape in
      match issues with
      | [] => Success (map (fun '(key, _) => (key, Value.get props key)) shape)
      | _ => Failure issues
      end
  | _ => Failure [{| code := invalid_type; path := [];
                     message := invalidTypeMessage "object" input |}]
  end.

(** *** [ZodError.format()] *)

(** A property of the formatted error: the root [_errors] array, or the
    node of a field, of which only its own [_errors] array is kept
    (the object schemas here are flat). *)
Inductive FormattedProp :=
| ErrorList (msgs : list string)
| FieldNode (_errors : list string).

Abbreviation ZodFormattedError := (list (string * FormattedProp)).

(** [fieldErrors._errors.push(msg)] on the root. *)
Fixpoint pushRoot (msg : string) (f : ZodFormattedError) : ZodFormattedError :=
  match f with
  | [] => []
  | (k, v) :: rest =>
      if String.eqb k "_errors"
      then (k, match v with
               | ErrorList es => ErrorList (es ++ [msg])
               | FieldNode es => v
               end) :: rest
      else (k, v) :: pushRoot msg rest
  end.

(** [curr[el] = curr[el] || { _errors: [] }], followed by the push when
    [el] is the last element of the path. *)
Fixpoint pushField (el : string) (terminal : bool) (msg : string)
  (f : ZodFormattedError) : ZodFormattedError :=
  match f with
  | [] => [(el, FieldNode (if terminal then [msg] else []))]
  | (k, v) :: rest =>
      if String.eqb k el
      then (k, match v with
               | FieldNode es => FieldNode (if terminal then es ++ [msg] else es)
               | ErrorList es => v
               end) :: rest
      else (k, v) :: pushField el terminal msg rest
  end.

Definition processIssue (f : ZodFormattedError) (issue : ZodIssue) : ZodFormattedError :=
  match path issue with
  | [] => pushRoot (message issue) f
  | el :: rest => pushField el (length rest =? 0)%nat (message issue) f
  end.

Definition format (error : ZodError) : ZodFormattedError :=
  foldl processIssue [("_errors", ErrorList [])] error.

End Zod.

(* ===================================================================== *)
(** ** utils/globalZodSchema.js *)
(* ===================================================================== *)

Definition userSchema : Zod.ObjectShape :=
  [ ("name", [Zod.CheckMin 2 "Name must be at least 2 characters"]);
    ("email", [Zod.CheckEmail "Email must be valid"]) ].

(* ===================================================================== *)
(** ** utils/formatZodError.js *)
(* ===================================================================== *)

(** [formatted[field]?._errors] *)
Definition fieldErrorsOf (v : Zod.FormattedProp) : option (list string) :=
  match v with
  | Zod.FieldNode es => Some es
  | Zod.ErrorList _ => None
  end.

(** One turn of the [for (const field in formatted)] loop. *)
Definition formatField (errors : gmap string string)
  (entry : string * Zod.FormattedProp) : gmap string string :=
  let '(field, v) := entry in
  if String.eqb field "_errors" then errors
  else
    match fieldErrorsOf v with
    | Some fieldErrors =>
        if (0 <? length fieldErrors)%nat then
          let error := JS.join ", " fieldErrors in
          <[ field :=
               if String.eqb (JS.trim (JS.toLowerCase error)) "required"
               then "The " +:+ field +:+ " field is required"
               else error ]> errors
        else errors
    | None => errors
    end.

(** The loop over an already formatted error. *)
Definition formatFields (formatted : Zod.ZodFormattedError) : gmap string string :=
  foldl formatField ∅ formatted.

Definition formatZodError (zodError : Zod.ZodError) : gmap string string :=
  let formatted := Zod.format zodError in
  formatFields formatted.

(* ===================================================================== *)
(** ** The persistence client *)
(* ===================================================================== *)

Module Prisma.

(** A row of the user table. *)
Record User := {
  id : Z;
  name : string;
  email : string
}.

(** What a rejected call throws, as far as the handlers read it:
    [error.message] and [error.meta.cause], each possibly undefined. *)
Record PrismaError := {
  message : option string;
  meta_cause : option string
}.

Inductive QueryMode := mode_default | mode_insensitive.

(** A filter on a string column.  The conditions that are present all
    have to hold. *)
Record StringFilter := {
  contains : option string;
  lte : option string;
  mode : option QueryMode
}.

(** One condition object on a user: a filter per mentioned column. *)
Record UserCondition := {
  on_name : option StringFilter;
  on_email : option StringFilter
}.

(** [where: { OR: [...] }] *)
Record UserWhereInput := {
  OR : list UserCondition
}.

(** The calls the controller makes on [prisma.user].  The identifier of
    a [where: { id }] is what [parseInt] returned: an integer, an
    infinity, or [None] for NaN. *)
Inductive Call :=
| create (data : JsObject)
| findUnique (where_id : option JS.Integral)
| update (where_id : option JS.Integral) (data : JsObject)
| delete (where_id : option JS.Integral)
| findMany (where_ : option UserWhereInput).

(** What a call resolves to. *)
Inductive Value :=
| VNull
| VUser (u : User)
| VUsers (us : list User).

(** The outcome of an awaited call. *)
Inductive Outcome :=
| Resolved (v : Value)
| Rejected (error : PrismaError).

(** ToBoolean of a resolved value: only [null] is falsy. *)
Definition truthy (v : Value) : bool :=
  match v with
  | VNull => false
  | _ => true
  end.

(** Modelled from the spec: the client of [model/prismaClient.js] and the
    database behind it.  The spec has a user table whose identifier is
    assigned by the persistence layer at creation and is unique; a
    lookup by identifier answers the record or nothing; update and
    delete of an identifier that has no record fail; any call fails
    when the database cannot be reached.  [collation_ci] says whether
    the database compares and matches text without regard to case when
    no mode is given. *)
Record Db := {
  users : list User;
  autoincrement : Z;
  outage : option PrismaError;
  collation_ci : bool
}.

Definition fold (ci : bool) (s : string) : string :=
  if ci then JS.toLowerCase s else s.

(** Lexicographic order on code units. *)
Fixpoint leString (a b : string) : bool :=
  match a, b with
  | EmptyString, _ => true
  | String _ _, EmptyString => false
  | String x a', String y b' =>
      if JS.code x <? JS.code y then true
      else if JS.code y <? JS.code x then false
      else leString a' b'
  end.

(** Modelled from the spec: the search primitive of the client.  A
    string filter holds of a column value when each condition that is
    present holds: [contains] is a substring test, [lte] (less than or
    equal) an order comparison with the given string, and [mode]
    switches case-insensitive matching on.  The substring test is that
    of a query without the characters a database reads as wildcards
    (the percent sign and the underscore). *)
Definition matchesFilter (ci : bool) (f : StringFilter) (v : string) : bool :=
  let ci' := match mode f with
             | Some mode_insensitive => true
             | Some mode_default => false
             | None => ci
             end in
  match contains f with
  | Some q => JS.includes (fold ci' v) (fold ci' q)
  | None => true
  end &&
  match lte f with
  | Some bound => leString (fold ci' v) (fold ci' bound)
  | None => true
  end.

Definition matchesCondition (ci : bool) (c : UserCondition) (u : User) : bool :=
  match on_name c with Some f => matchesFilter ci f (name u) | None => true end &&
  match on_email c with Some f => matchesFilter ci f (email u) | None => true end.

Definition matchesWhere (ci : bool) (w : option UserWhereInput) (u : User) : bool :=
  match w with
  | None => true
  | Some w => existsb (fun c => matchesCondition ci c u) (OR w)
  end.

Definition findById (n : Z) (us : list User) : option User :=
  List.find (fun u => id u =? n) us.

(** The identifier of a [where], when it is an integer. *)
Definition integerId (where_id : option JS.Integral) : option Z :=
  match where_id with
  | Some (JS.Finite n) => Some n
  | _ => None
  end.

(** The client rejects arguments of the wrong shape (an identifier that
    is NaN or infinite among them) before the database is asked. *)
Definition validationError : PrismaError :=
  {| message := Some "Invalid invocation: argument validation failed";
     meta_cause := None |}.

Definition notFound (cause : string) : PrismaError :=
  {| message := Some "An operation failed because it depends on one or more records that were required but not found.";
     meta_cause := Some cause |}.

(** The two columns a create or update writes, when [data] gives both
    as strings and names no other column. *)
Definition userData (data : JsObject) : option (string * string) :=
  match Value.get data "name", Value.get data "email" with
  | JStr n, JStr e =>
      if forallb (fun k => String.eqb k "name" || String.eqb k "email")
                 (Value.keys data)
      then Some (n, e) else None
  | _, _ => None
  end.

Definition withUsers (db : Db) (us : list User) (next : Z) : Db :=
  {| users := us; autoincrement := next;
     outage := outage db; collation_ci := collation_ci db |}.

(** Modelled from the spec: what the client answers to each call, and
    the database afterwards. *)
Definition exec (c : Call) (db : Db) : Outcome * Db :=
  match c with
  | create data =>
      match userData data, outage db with
      | None, _ => (Rejected validationError, db)
      | Some _, Some e => (Rejected e, db)
      | Some (n, e), None =>
          let u := {| id := autoincrement db; name := n; email := e |} in
          (Resolved (VUser u), withUsers db (users db ++ [u]) (autoincrement db + 1))
      end
  | findUnique where_id =>
      match integerId where_id, outage db with
      | None, _ => (Rejected validationError, db)
      | Some _, Some e => (Rejected e, db)
      | Some n, None =>
          (Resolved (match findById n (users db) with
                     | Some u => VUser u
                     | None => VNull
                     end), db)
      end
  | update where_id data =>
      match integerId where_id, userData data, outage db with
      | None, _, _ | _, None, _ => (Rejected validationError, db)
      | Some _, Some _, Some e => (Rejected e, db)
      | Some n, Some (nm, em), None =>
          match findById n (users db) with
          | None => (Rejected (notFound "Record to update not found."), db)
          | Some _ =>
              let u := {| id := n; name := nm; email := em |} in
              (Resolved (VUser u),
               withUsers db (map (fun r => if id r =? n then u else r) (users db))
                         (autoincrement db))
          end
      end
  | delete where_id =>
      match integerId where_id, outage db with
      | None, _ => (Rejected validationError, db)
      | Some _, Some e => (Rejected e, db)
      | Some n, None =>
          match findById n (users db) with
          | None => (Rejected (notFound "Record to delete does not exist."), db)
          | Some u =>
              (Resolved (VUser u),
               withUsers db (List.filter (fun r => negb (id r =? n)) (users db))
                         (autoincrement db))
          end
      end
  | findMany where_ =>
      match outage db with
      | Some e => (Rejected e, db)
      | None =>
          (Resolved (VUsers (List.filter (matchesWhere (collation_ci db) where_) (users db))), db)
      end
  end.

End Prisma.

(* ===================================================================== *)
(** ** controller/UserController.js *)
(* ===================================================================== *)

(** The parts of an express request the handlers read. *)
Record Request := {
  params_id : option string;   (* req.params.id *)
  query_query : JsValue;       (* req.query.query *)
  body : JsValue               (* req.body *)
}.

Inductive Body :=
| Json (v : Prisma.Value)               (* res.json(user) *)
| JsonError (error : string)            (* res.json({ error }) *)
| JsonErrors (errors : gmap string string)  (* res.json({ errors }) *)
| Empty.                                (* res.send() *)

Record Response := {
  status : Z;
  payload : Body
}.

(** A handler either answers at once, or awaits one call on the client
    and answers from its outcome (the [try]/[catch] around the call). *)
Inductive Handler :=
| Done (res : Response)
| Await (call : Prisma.Call) (k : Prisma.Outcome -> Response).

Definition res (st : Z) (b : Body) : Response := {| status := st; payload := b |}.

(** [a || b] on a string that may be undefined. *)
Definition orElse (a : option string) (b : string) : string :=
  match a with
  | Some (String _ _ as s) => s
  | _ => b
  end.

Module UserController.

Definition createUser (req : Request) : Handler :=
  let result := Zod.safeParse userSchema (body req) in
  match result with
  | Zod.Failure error =>
      let errors := formatZodError error in
      Done (res 400 (JsonErrors errors))
  | Zod.Success data =>
      Await (Prisma.create data) (fun o =>
        match o with
        | Prisma.Resolved user => res 201 (Json user)
        | Prisma.Rejected error =>
            res 500 (JsonError (orElse (Prisma.message error) "Internal Server Error"))
        end)
  end.

Definition getUser (req : Request) : Handler :=
  let id := params_id req in
  if negb (JS.truthy id) || JS.isNaN id then
    Done (res 400 (JsonError "Invalid user ID"))
  else
    Await (Prisma.findUnique (JS.parseInt id)) (fun o =>
      match o with
      | Prisma.Resolved user =>
          if negb (Prisma.truthy user) then res 404 (JsonError "User not found")
          else res 200 (Json user)
      | Prisma.Rejected error => res 500 (JsonError "Internal Server Error")
      end).

Definition updateUser (req : Request) : Handler :=
  let id := params_id req in
  if negb (JS.truthy id) || JS.isNaN id then
    Done (res 400 (JsonError "Invalid user ID"))
  else
    let result := Zod.safeParse userSchema (body req) in
    match result with
    | Zod.Failure error =>
        let errors := formatZodError error in
        Done (res 400 (JsonErrors errors))
    | Zod.Success data =>
        Await (Prisma.update (JS.parseInt id) data) (fun o =>
          match o with
          | Prisma.Resolved user => res 200 (Json user)
          | Prisma.Rejected error => res 500 (JsonError "Internal Server Error")
          end)
    end.

Definition deleteUser (req : Request) : Handler :=
  let id := params_id req in
  if negb (JS.truthy id) || JS.isNaN id then
    Done (res 400 (JsonError "Invalid user ID"))
  else
    Await (Prisma.delete (JS.parseInt id)) (fun o =>
      match o with
      | Prisma.Resolved _ => res 204 Empty
      | Prisma.Rejected error =>
          res 500 (JsonError (orElse (Prisma.meta_cause error) "Internal Server Error"))
      end).

Definition listUsers (req : Request) : Handler :=
  Await (Prisma.findMany None) (fun o =>
    match o with
    | Prisma.Resolved users => res 200 (Json users)
    | Prisma.Rejected error => res 500 (JsonError "Internal Server Error")
    end).

(** The filter object the source builds for a column. *)
Definition searchFilter (query : string) : Prisma.StringFilter :=
  {| Prisma.contains := Some query;
     Prisma.lte := Some "insensitive";
     Prisma.mode := None |}.

Definition searchUsers (req : Request) : Handler :=
  let query := query_query req in
  match query with
  | JStr q =>
      if negb (Value.truthy query) || String.eqb (JS.trim q) "" then
        Done (res 400 (JsonError "Query parameter is required"))
      else
        Await (Prisma.findMany (Some
                 {| Prisma.OR :=
                      [ {| Prisma.on_name := Some (searchFilter q);
                           Prisma.on_email := None |};
                        {| Prisma.on_name := None;
                           Prisma.on_email := Some (searchFilter q) |} ] |}))
          (fun o =>
            match o with
            | Prisma.Resolved users => res 200 (Json users)
            | Prisma.Rejected error => res 500 (JsonError "Internal Server Error")
            end)
  | _ =>
      (* !query || typeof query !== "string" *)
      Done (res 400 (JsonError "Query parameter is required"))
  end.

End UserController.

(** Running a handler against the database: the response, the database
    afterwards, and the calls that were made. *)
Definition run (h : Handler) (db : Prisma.Db) : Response * Prisma.Db * list Prisma.Call :=
  match h with
  | Done r => (r, db, [])
  | Await c k => let '(o, db') := Prisma.exec c db in (k o, db', [c])
  end.

Definition calls (h : Handler) : list Prisma.Call :=
  match h with
  | Done _ => []
  | Await c _ => [c]
  end.

(* ===================================================================== *)
(** ** routes/userRoutes.js *)
(* ===================================================================== *)

Module Routes.

(** The method of a request; [OTHER] is any method but the five named. *)
Inductive Method := GET | POST | PUT | DELETE | HEAD | OTHER.

(** The members of [UserController] a route can name. *)
Inductive Handle :=
| createUser | listUsers | searchUsers | getUser | updateUser | deleteUser.

Definition handler (h : Handle) : Request -> Handler :=
  match h with
  | createUser => UserController.createUser
  | listUsers => UserController.listUsers
  | searchUsers => UserController.searchUsers
  | getUser => UserController.getUser
  | updateUser => UserController.updateUser
  | deleteUser => UserController.deleteUser
  end.

(** A segment of a route path: a literal, or a named parameter. *)
Inductive Segment :=
| Lit (s : string)
| Param (name : string).

#[global] Instance Segment_eq_dec : EqDecision Segment.
Proof. solve_decision. Defined.

Record Route := {
  method : Method;
  pattern : list Segment;
  handle : Handle
}.

(** The table, in the order of registration.  The router is mounted
    under /api; the paths here are what is left of the path name of the
    request after that prefix. *)
Definition userRoutes : list Route :=
  [ {| method := POST;   pattern := [Lit "users"];              handle := createUser |};
    {| method := GET;    pattern := [Lit "users"];              handle := listUsers |};
    {| method := GET;    pattern := [Lit "users"; Lit "search"]; handle := searchUsers |};
    {| method := GET;    pattern := [Lit "users"; Param "id"];   handle := getUser |};
    {| method := PUT;    pattern := [Lit "users"; Param "id"];   handle := updateUser |};
    {| method := DELETE; pattern := [Lit "users"; Param "id"];   handle := deleteUser |} ].

Definition eqMethod (a b : Method) : bool :=
  match a, b with
  | GET, GET | POST, POST | PUT, PUT | DELETE, DELETE => true
  | _, _ => false
  end.

(** A route handles the requests of its method; a route registered
    with [get] handles HEAD requests as well. *)
Definition handles (routeMethod m : Method) : bool :=
  eqMethod routeMethod (match m with HEAD => GET | _ => m end).

(** The segments of a request path: split at the slashes, without the
    empty piece before the leading slash and without the empty piece a
    trailing slash leaves (routing is not strict). *)
Definition segments (path : string) : list string :=
  let parts := match JS.splitOn "/" path with
               | EmptyString :: rest => rest
               | parts => parts
               end in
  match List.rev parts with
  | EmptyString :: front => List.rev front
  | _ => parts
  end.

(** The outcome of matching a path against a pattern: the captured
    parameters; no match; a captured segment with a malformed escape;
    or a captured segment that decodes to a character the strings here
    do not have. *)
Inductive Match :=
| Params (ps : list (string * string))
| NoMatch
| BadEscape
| Unrepresented.

Definition capture (name : string) (d : JS.Decoding) (rest : Match) : Match :=
  match rest with
  | NoMatch => NoMatch
  | BadEscape => BadEscape
  | Unrepresented =>
      match d with JS.Malformed => BadEscape | _ => Unrepresented end
  | Params ps =>
      match d with
      | JS.Decoded v => Params ((name, v) :: ps)
      | JS.Malformed => BadEscape
      | JS.Beyond => Unrepresented
      end
  end.

(** Matching the segments of a path against a pattern.  Literals match
    the raw segment without regard to case; a parameter captures one
    non-empty raw segment, and once the whole path matches the captured
    segment is percent-decoded. *)
Fixpoint matchPattern (pat : list Segment) (segs : list string) : Match :=
  match pat, segs with
  | [], [] => Params []
  | Lit l :: pat', s :: segs' =>
      if String.eqb (JS.toLowerCase l) (JS.toLowerCase s)
      then matchPattern pat' segs' else NoMatch
  | Param x :: pat', s :: segs' =>
      if JS.isEmpty s then NoMatch
      else capture x (JS.decodeURIComponent s) (matchPattern pat' segs')
  | _, _ => NoMatch
  end.

(** What the router does with a request: it runs a handler of the
    controller with the captured parameters; or no route takes the
    request and it falls through; or a parameter could not be decoded
    and the request is answered 400 by the framework; or the request
    is outside of what the strings here can hold. *)
Inductive Dispatch :=
| Run (h : Handle) (ps : list (string * string))
| NoRoute
| BadRequest
| Outside.

(** The routes are tried in order.  A route whose path matches is
    decoded before its method is looked at; the first one that matches
    and handles the method wins, and a malformed escape ends the
    search. *)
Fixpoint dispatchIn (table : list Route) (m : Method) (segs : list string)
  : Dispatch :=
  match table with
  | [] => NoRoute
  | r :: rest =>
      match matchPattern (pattern r) segs with
      | NoMatch => dispatchIn rest m segs
      | BadEscape => BadRequest
      | Unrepresented =>
          if handles (method r) m then Outside else dispatchIn rest m segs
      | Params ps =>
          if handles (method r) m then Run (handle r) ps
          else dispatchIn rest m segs
      end
  end.

Definition dispatch (m : Method) (path : string) : Dispatch :=
  dispatchIn userRoutes m (segments path).


End Routes.

(* ===================================================================== *)
(** ** Notions the statements below are phrased with *)
(* ===================================================================== *)

(** [formatted[key]], when the object has that key. *)
Fixpoint property (f : Zod.ZodFormattedError) (key : string) : option Zod.FormattedProp :=
  match f with
  | [] => None
  | (k, v) :: rest => if String.eqb k key then Some v else property rest key
  end.

(** The display string of a field whose messages are [msgs]. *)
Definition display (field : string) (msgs : list string) : string :=
  let joined := JS.join ", " msgs in
  if String.eqb (JS.trim (JS.toLowerCase joined)) "required"
  then "The " +:+ field +:+ " field is required"
  else joined.

(** What one property contributes under its key. *)
Definition entryMessage (field : string) (v : Zod.FormattedProp) : option string :=
  if String.eqb field "_errors" then None
  else
    match v with
    | Zod.FieldNode (m :: ms) => Some (display field (m :: ms))
    | _ => None
    end.

(** The messages in the node of [field], if the formatted error has one. *)
Definition nodeErrors (f : Zod.ZodFormattedError) (field : string) : list string :=
  match property f field with
  | Some (Zod.FieldNode es) => es
  | _ => []
  end.

(** Only the root key holds a bare list of messages. *)
Definition rootOnly (f : Zod.ZodFormattedError) : Prop :=
  forall k es, property f k = Some (Zod.ErrorList es) -> k = "_errors".

(** The messages of the issues that sit exactly at [field]. *)
Definition fieldMessages (field : string) (error : Zod.ZodError) : list string :=
  map Zod.message
      (List.filter (fun i => bool_decide (Zod.path i = [field])) error).

(** The messages a validation result carries for [field]. *)
Definition messagesAt (field : string) (r : Zod.SafeParseResult) : list string :=
  match r with
  | Zod.Success _ => []
  | Zod.Failure error => fieldMessages field error
  end.

(** The id check of the handlers, in the words of the spec: the
    parameter is present, not empty, and its string form converts to a
    number. *)
Definition idAccepted (id : option string) : Prop :=
  exists s, id = Some s /\ s <> "" /\ JS.mathematicalValue s <> JS.NaN.

(** A plain decimal numeral: optional minus sign, integer digits, a dot,
    fraction digits. *)
Definition plainDecimal (neg : bool) (ip fp : string) : string :=
  (if neg then "-" else "") +:+ ip +:+ "." +:+ fp.

Definition allDigits (s : string) : bool := JS.allChars JS.isDigit s.

(** What the spec asks of the search: the query occurs in the name or
    in the email, compared without regard to case. *)
Definition searchMatches (query : string) (u : Prisma.User) : bool :=
  JS.includes (JS.toLowerCase (Prisma.name u)) (JS.toLowerCase query) ||
  JS.includes (JS.toLowerCase (Prisma.email u)) (JS.toLowerCase query).

(** [v.key] for any value: [undefined] unless [v] is an object that has it. *)
Definition fieldOf (v : JsValue) (key : string) : JsValue :=
  match v with
  | JObj props => Value.get props key
  | _ => JUndefined
  end.

(** The constraints of the spec on the two fields of a user. *)
Definition nameValid (v : JsValue) : bool :=
  match v with
  | JStr s => negb (String.length s <? 2)%nat
  | _ => false
  end.

Definition emailValid (v : JsValue) : bool :=
  match v with
  | JStr s => Zod.isEmail s
  | _ => false
  end.

Definition isSuccess (r : Zod.SafeParseResult) : bool :=
  match r with
  | Zod.Success _ => true
  | Zod.Failure _ => false
  end.

(** The code of the id check: [!id || isNaN(id)]. *)
Definition idRejected (id : option string) : bool :=
  negb (JS.truthy id) || JS.isNaN id.

(** A string of white space only (the empty string included). *)
Definition isBlank (s : string) : bool := JS.allChars JS.isWhiteSpace s.

(** A decimal integer numeral: optional minus sign, digits. *)
Definition signedDigits (neg : bool) (ds : string) : string :=
  (if neg then "-" else "") +:+ ds.

(** The answer of a handler, given the outcome of the call it awaits
    (a handler that answers at once does not look at it). *)
Definition respond (h : Handler) (o : Prisma.Outcome) : Response :=
  match h with
  | Done r => r
  | Await _ k => k o
  end.

(** The calls that only read. *)
Definition readsOnly (c : Prisma.Call) : bool :=
  match c with
  | Prisma.findUnique _ | Prisma.findMany _ => true
  | _ => false
  end.

(** The method each member of the controller is registered under. *)
Definition methodOf (h : Routes.Handle) : Routes.Method :=
  match h with
  | Routes.createUser => Routes.POST
  | Routes.listUsers | Routes.searchUsers | Routes.getUser => Routes.GET
  | Routes.updateUser => Routes.PUT
  | Routes.deleteUser => Routes.DELETE
  end.

Definition usesId (h : Routes.Handle) : bool :=
  match h with
  | Routes.getUser | Routes.updateUser | Routes.deleteUser => true
  | _ => false
  end.

(** [req.params[name]] after a match. *)
Fixpoint param (ps : list (string * string)) (name : string) : option string :=
  match ps with
  | [] => None
  | (k, v) :: rest => if String.eqb k name then Some v else param rest name
  end.

(** A request through the router: the matched route's handler runs on
    the request with the captured parameters; [None] when no handler of
    the controller runs. *)
Definition serve (m : Routes.Method) (path : string) (query body : JsValue)
  : option Handler :=
  match Routes.dispatch m path with
  | Routes.Run h ps =>
      Some (Routes.handler h
              {| params_id := param ps "id"; query_query := query; body := body |})
  | _ => None
  end.

(** Sample data for the worked instances. *)
Definition ann : Prisma.User :=
  {| Prisma.id := 7; Prisma.name := "Ann"; Prisma.email := "ann@b.com" |}.

Definition dbWithAnn : Prisma.Db :=
  {| Prisma.users := [ann]; Prisma.autoincrement := 8;
     Prisma.outage := None; Prisma.collation_ci := false |}.

Definition serverDown : Prisma.PrismaError :=
  {| Prisma.message := Some "Can't reach database server";
     Prisma.meta_cause := None |}.

Definition dbDown : Prisma.Db :=
  {| Prisma.users := [ann]; Prisma.autoincrement := 8;
     Prisma.outage := Some serverDown; Prisma.collation_ci := false |}.

Definition request (id : option string) (b : JsValue) : Request :=
  {| params_id := id; query_query := JUndefined; body := b |}.


(* ===================================================================== *)
(** ** The error formatter *)
(* ===================================================================== *)

#[local] Arguments String.eqb : simpl never.

Section Formatter.

Implicit Types (f : Zod.ZodFormattedError) (field : string).

Lemma formatField_same acc field v :
  formatField acc (field, v) !! field =
  match entryMessage field v with
  | Some msg => Some msg
  | None => acc !! field
  end.
Proof.
  unfold formatField, entryMessage.
  destruct (String.eqb field "_errors"); [reflexivity|].
  destruct v as [msgs|[|m ms]]; simpl; try reflexivity.
  rewrite lookup_insert_eq. reflexivity.
Qed.

Lemma formatField_other acc k v field :
  k <> field -> formatField acc (k, v) !! field = acc !! field.
Proof.
  intros Hne. unfold formatField.
  destruct (String.eqb k "_errors"); [reflexivity|].
  destruct v as [msgs|[|m ms]]; simpl; try reflexivity.
  rewrite lookup_insert_ne by assumption. reflexivity.
Qed.

Lemma property_absent f field :
  field ∉ map fst f -> property f field = None.
Proof.
  induction f as [|[k v] rest IH]; simpl; intros Hin; [reflexivity|].
  destruct (String.eqb_spec k field) as [->|Hne].
  - exfalso. apply Hin. left.
  - apply IH. intros H. apply Hin. right. exact H.
Qed.

Lemma foldl_formatField_lookup f : forall acc field,
  NoDup (map fst f) ->
  foldl formatField acc f !! field =
  match property f field ≫= entryMessage field with
  | Some msg => Some msg
  | None => acc !! field
  end.
Proof.
  induction f as [|[k v] rest IH]; intros acc field Hnd; simpl; [reflexivity|].
  apply NoDup_cons in Hnd as [Hk Hrest].
  rewrite IH by assumption.
  destruct (String.eqb_spec k field) as [->|Hne]; simpl.
  - rewrite (property_absent rest field Hk). simpl.
    apply formatField_same.
  - destruct (property rest field ≫= entryMessage field); [reflexivity|].
    apply formatField_other. assumption.
Qed.

(** The loop of the formatter, property by property. *)
Lemma formatFields_lookup f field :
  NoDup (map fst f) ->
  formatFields f !! field = property f field ≫= entryMessage field.
Proof.
  intros Hnd. unfold formatFields.
  rewrite foldl_formatField_lookup by assumption.
  rewrite lookup_empty.
  destruct (property f field ≫= entryMessage field); reflexivity.
Qed.

End Formatter.

Section Format.

Implicit Types (f : Zod.ZodFormattedError) (field el : string).

Lemma property_pushRoot msg f field :
  field <> "_errors" -> property (Zod.pushRoot msg f) field = property f field.
Proof.
  intros Hne. induction f as [|[k v] rest IH]; simpl; [reflexivity|].
  destruct (String.eqb_spec k "_errors") as [->|Hk]; simpl.
  - destruct (String.eqb_spec "_errors" field) as [E|_]; [congruence|reflexivity].
  - rewrite IH. reflexivity.
Qed.

Lemma keys_pushRoot msg f : map fst (Zod.pushRoot msg f) = map fst f.
Proof.
  induction f as [|[k v] rest IH]; simpl; [reflexivity|].
  destruct (String.eqb k "_errors"); simpl; [reflexivity|].
  rewrite IH. reflexivity.
Qed.

Lemma rootOnly_pushRoot msg f : rootOnly f -> rootOnly (Zod.pushRoot msg f).
Proof.
  intros Hf k es Hk.
  destruct (String.eqb_spec k "_errors") as [|Hne]; [assumption|].
  rewrite property_pushRoot in Hk by assumption. eapply Hf, Hk.
Qed.

Lemma property_pushField_other el t msg f field :
  el <> field -> property (Zod.pushField el t msg f) field = property f field.
Proof.
  intros Hne. induction f as [|[k v] rest IH]; simpl.
  - destruct (String.eqb_spec el field); [contradiction|reflexivity].
  - destruct (String.eqb_spec k el) as [->|Hk]; simpl.
    + destruct (String.eqb_spec el field); [contradiction|reflexivity].
    + rewrite IH. reflexivity.
Qed.

Lemma property_pushField_same el t msg f :
  property (Zod.pushField el t msg f) el =
  Some match property f el with
       | Some (Zod.FieldNode es) => Zod.FieldNode (if t then es ++ [msg] else es)
       | Some (Zod.ErrorList es) => Zod.ErrorList es
       | None => Zod.FieldNode (if t then [msg] else [])
       end.
Proof.
  induction f as [|[k v] rest IH]; simpl.
  - rewrite String.eqb_refl. reflexivity.
  - destruct (String.eqb_spec k el) as [->|Hk]; simpl.
    + rewrite String.eqb_refl. destruct v; reflexivity.
    + destruct (String.eqb_spec k el); [contradiction|]. exact IH.
Qed.

Lemma keys_pushField el t msg f x :
  x ∈ map fst (Zod.pushField el t msg f) <-> x = el \/ x ∈ map fst f.
Proof.
  induction f as [|[k v] rest IH]; simpl.
  - rewrite list_elem_of_singleton. split; [tauto|].
    intros [H|H]; [assumption|]. inversion H.
  - destruct (String.eqb_spec k el) as [->|Hk]; simpl.
    + rewrite elem_of_cons. tauto.
    + rewrite !elem_of_cons, IH. tauto.
Qed.

Lemma NoDup_pushField el t msg f :
  NoDup (map fst f) -> NoDup (map fst (Zod.pushField el t msg f)).
Proof.
  induction f as [|[k v] rest IH]; simpl; intros Hnd.
  - apply NoDup_singleton.
  - apply NoDup_cons in Hnd as [Hk Hrest].
    destruct (String.eqb_spec k el) as [->|Hne]; simpl.
    + apply NoDup_cons. split; assumption.
    + apply NoDup_cons. split; [|apply IH; assumption].
      rewrite keys_pushField. intros [E|Hin]; [congruence|contradiction].
Qed.

Lemma rootOnly_pushField el t msg f :
  rootOnly f -> rootOnly (Zod.pushField el t msg f).
Proof.
  intros Hf k es Hk.
  destruct (String.eqb_spec el k) as [->|Hne].
  - rewrite property_pushField_same in Hk.
    destruct (property f k) as [[es'|es']|] eqn:E; try discriminate.
    eapply Hf, E.
  - rewrite property_pushField_other in Hk by assumption. eapply Hf, Hk.
Qed.

Lemma NoDup_processIssue f i :
  NoDup (map fst f) -> NoDup (map fst (Zod.processIssue f i)).
Proof.
  intros Hnd. unfold Zod.processIssue.
  destruct (Zod.path i) as [|el rest].
  - rewrite keys_pushRoot. assumption.
  - apply NoDup_pushField. assumption.
Qed.

Lemma rootOnly_processIssue f i : rootOnly f -> rootOnly (Zod.processIssue f i).
Proof.
  intros Hf. unfold Zod.processIssue.
  destruct (Zod.path i) as [|el rest].
  - apply rootOnly_pushRoot. assumption.
  - apply rootOnly_pushField. assumption.
Qed.

(** One issue adds its message to the node of the field it sits at, and
    to no other node. *)
Lemma nodeErrors_processIssue f i field :
  rootOnly f -> field <> "_errors" ->
  nodeErrors (Zod.processIssue f i) field =
  (nodeErrors f field ++ fieldMessages field [i])%list.
Proof.
  intros Hf Hne. unfold nodeErrors, fieldMessages, Zod.processIssue. simpl.
  destruct (Zod.path i) as [|el rest] eqn:Hp.
  - rewrite property_pushRoot by assumption.
    rewrite bool_decide_eq_false_2 by discriminate. simpl.
    rewrite app_nil_r. reflexivity.
  - destruct (String.eqb_spec el field) as [->|Hel].
    + rewrite property_pushField_same.
      destruct rest as [|r rest]; simpl.
      * rewrite bool_decide_eq_true_2 by reflexivity. simpl.
        destruct (property f field) as [[es|es]|] eqn:E; try reflexivity.
        apply Hf in E. contradiction.
      * rewrite bool_decide_eq_false_2 by discriminate. simpl.
        destruct (property f field) as [[es|es]|] eqn:E; rewrite ?app_nil_r; try reflexivity.
    + rewrite property_pushField_other by assumption.
      rewrite bool_decide_eq_false_2 by congruence. simpl.
      rewrite app_nil_r. reflexivity.
Qed.

Lemma fieldMessages_cons field i error :
  fieldMessages field (i :: error) =
  (fieldMessages field [i] ++ fieldMessages field error)%list.
Proof.
  unfold fieldMessages. simpl.
  destruct (bool_decide (Zod.path i = [field])); reflexivity.
Qed.

Lemma foldl_processIssue error : forall f field,
  rootOnly f -> NoDup (map fst f) -> field <> "_errors" ->
  let f' := foldl Zod.processIssue f error in
  NoDup (map fst f') /\
  nodeErrors f' field = (nodeErrors f field ++ fieldMessages field error)%list.
Proof.
  induction error as [|i error IH]; intros f field Hf Hnd Hne; simpl.
  - split; [assumption|]. unfold fieldMessages. simpl. rewrite app_nil_r. reflexivity.
  - destruct (IH (Zod.processIssue f i) field) as [Hnd' Herr].
    + apply rootOnly_processIssue; assumption.
    + apply NoDup_processIssue; assumption.
    + assumption.
    + split; [exact Hnd'|].
      rewrite Herr, nodeErrors_processIssue by assumption.
      rewrite (fieldMessages_cons field i error), app_assoc. reflexivity.
Qed.

Lemma NoDup_format error : NoDup (map fst (Zod.format error)).
Proof.
  unfold Zod.format.
  induction error as [|i error IH] using rev_ind; simpl.
  - apply NoDup_singleton.
  - rewrite foldl_app. simpl. apply NoDup_processIssue. exact IH.
Qed.

Lemma nodeErrors_format error field :
  field <> "_errors" -> nodeErrors (Zod.format error) field = fieldMessages field error.
Proof.
  intros Hne. unfold Zod.format.
  destruct (foldl_processIssue error [("_errors", Zod.ErrorList [])] field) as [_ H].
  - intros k es Hk. simpl in Hk.
    destruct (String.eqb_spec "_errors" k); [congruence|discriminate].
  - apply NoDup_singleton.
  - assumption.
  - rewrite H. unfold nodeErrors. simpl.
    destruct (String.eqb_spec "_errors" field); [congruence|reflexivity].
Qed.

(** The formatter on a validation error: a field shows up exactly when
    issues sit at it, with their messages joined. *)
Lemma formatZodError_lookup error field :
  formatZodError error !! field =
  if String.eqb field "_errors" then None
  else
    match fieldMessages field error with
    | [] => None
    | msgs => Some (display field msgs)
    end.
Proof.
  unfold formatZodError.
  rewrite formatFields_lookup by apply NoDup_format.
  destruct (String.eqb_spec field "_errors") as [->|Hne].
  - destruct (property (Zod.format error) "_errors"); reflexivity.
  - rewrite <- (nodeErrors_format error field Hne). unfold nodeErrors.
    destruct (property (Zod.format error) field) as [[es|[|m ms]]|]; simpl;
      unfold entryMessage;
      destruct (String.eqb_spec field "_errors"); try contradiction; reflexivity.
Qed.

End Format.

(** C3: for every structured validation failure the formatter returns a
    flat mapping in which a field with one or more messages maps to
    those messages joined with a comma and a space, replaced by
    "The <field> field is required" when the joined string, lowercased
    and trimmed, is exactly "required"; a field with no message is
    left out; the root errors are ignored.  In particular the failure
    whose only field [name] carries the message "required" is formatted
    as [name] mapped to "The name field is required". *)
Theorem formatErrors_policy :
  (forall (formatted : Zod.ZodFormattedError) (field : string),
     NoDup (map fst formatted) ->
     formatFields formatted !! field =
     if String.eqb field "_errors" then None
     else
       match property formatted field with
       | Some (Zod.FieldNode (m :: ms)) =>
           let joined := JS.join ", " (m :: ms) in
           Some (if String.eqb (JS.trim (JS.toLowerCase joined)) "required"
                 then "The " +:+ field +:+ " field is required"
                 else joined)
       | _ => None
       end) /\
  (forall (error : Zod.ZodError) (field : string),
     formatZodError error !! field =
     if String.eqb field "_errors" then None
     else
       match fieldMessages field error with
       | [] => None
       | msgs =>
           let joined := JS.join ", " msgs in
           Some (if String.eqb (JS.trim (JS.toLowerCase joined)) "required"
                 then "The " +:+ field +:+ " field is required"
                 else joined)
       end) /\
  (forall (error : Zod.ZodError) c msg,
     formatZodError ({| Zod.code := c; Zod.path := []; Zod.message := msg |} :: error)
     = formatZodError error) /\
  formatFields [("name", Zod.FieldNode ["required"])]
  = {[ "name" := "The name field is required" ]} /\
  formatFields [("email", Zod.FieldNode ["Email must be valid"])]
  = {[ "email" := "Email must be valid" ]}.
Proof.
  split; [|split; [|split; [|split]]].
  - intros formatted field Hnd.
    rewrite formatFields_lookup by assumption.
    unfold entryMessage, display.
    destruct (property formatted field) as [[es|[|m ms]]|]; simpl;
      destruct (String.eqb field "_errors"); reflexivity.
  - intros error field. rewrite formatZodError_lookup.
    destruct (String.eqb field "_errors"); [reflexivity|].
    destruct (fieldMessages field error); reflexivity.
  - intros error c msg. apply map_eq. intros field.
    rewrite !formatZodError_lookup, fieldMessages_cons.
    unfold fieldMessages at 1. simpl. reflexivity.
  - reflexivity.
  - reflexivity.
Qed.

Lemma formatErrors_policy_witness :
  NoDup (map fst [("_errors", Zod.ErrorList ["Required"]);
                  ("name", Zod.FieldNode ["required"]);
                  ("zip", Zod.FieldNode [])]) /\
  formatFields [("_errors", Zod.ErrorList ["Required"]);
                ("name", Zod.FieldNode ["required"]);
                ("zip", Zod.FieldNode [])] !! "name"
  = Some "The name field is required".
Proof.
  assert (Hnd : NoDup (map fst [("_errors", Zod.ErrorList ["Required"]);
                                ("name", Zod.FieldNode ["required"]);
                                ("zip", Zod.FieldNode [])])).
  { apply (bool_decide_unpack _). vm_compute. exact I. }
  split; [exact Hnd|].
  exact (proj1 formatErrors_policy _ "name" Hnd).
Defined.

(* ===================================================================== *)
(** ** Validation *)
(* ===================================================================== *)

Section Validation.

(** [userSchema] on an object: the two fields are parsed one after the
    other and their issues are put together. *)
Lemma safeParse_userSchema props :
  Zod.safeParse userSchema (JObj props) =
  match (Zod.parseString [Zod.CheckMin 2 "Name must be at least 2 characters"]
                         ["name"] (Value.get props "name") ++
         Zod.parseString [Zod.CheckEmail "Email must be valid"]
                         ["email"] (Value.get props "email"))%list with
  | [] => Zod.Success [("name", Value.get props "name");
                       ("email", Value.get props "email")]
  | issues => Zod.Failure issues
  end.
Proof.
  unfold Zod.safeParse, userSchema. simpl. rewrite app_nil_r.
  destruct (_ ++ _)%list; reflexivity.
Qed.

(** The result depends on the name and on the email of the input only. *)
Lemma safeParse_userSchema_fields (b1 b2 : JsValue) :
  isSuccess (Zod.safeParse userSchema b1) = true ->
  fieldOf b1 "name" = fieldOf b2 "name" ->
  fieldOf b1 "email" = fieldOf b2 "email" ->
  Zod.safeParse userSchema b1 = Zod.safeParse userSchema b2.
Proof.
  intros Hok Hn He.
  destruct b1 as [| | | | |items1|props1]; try discriminate Hok.
  rewrite safeParse_userSchema in *. simpl in Hn, He.
  destruct (Value.get props1 "name") as [| | | |n| |] eqn:En; try discriminate Hok.
  destruct (Value.get props1 "email") as [| | | |e| |] eqn:Ee;
    try (simpl in Hok; destruct (String.length n <? 2)%nat; discriminate Hok).
  destruct b2 as [| | | | |items2|props2]; try discriminate Hn.
  simpl in Hn, He. rewrite safeParse_userSchema, <- Hn, <- He. reflexivity.
Qed.

Lemma success_is_valid (b : JsValue) data :
  Zod.safeParse userSchema b = Zod.Success data ->
  data = [("name", fieldOf b "name"); ("email", fieldOf b "email")] /\
  nameValid (fieldOf b "name") = true /\ emailValid (fieldOf b "email") = true.
Proof.
  destruct b as [| | | | |items|props]; try discriminate.
  rewrite safeParse_userSchema. simpl.
  destruct (Value.get props "name") as [| | | |n| |]; try discriminate.
  destruct (Value.get props "email") as [| | | |e| |]; simpl;
    destruct (String.length n <? 2)%nat; try discriminate;
    destruct (Zod.isEmail e); try discriminate.
  intros [= <-]. auto.
Qed.

End Validation.

(** C4 (amended): on an object, validation fails the name field exactly
    when it is no string or shorter than 2 characters, with the message
    "Name must be at least 2 characters" for a string that is too short
    and with the type message of the library for a value that is no
    string ("Required" when the field is absent); it fails the email
    field exactly when it is no valid email address, with "Email must
    be valid" for a string and the type message otherwise; one call
    reports both fields; an input that is no object fails as a whole
    with one issue at the root. *)
Theorem userSchema_failures (input : JsValue) :
  let r := Zod.safeParse userSchema input in
  match input with
  | JObj props =>
      let n := Value.get props "name" in
      let e := Value.get props "email" in
      messagesAt "name" r =
        (if nameValid n then []
         else [if Value.isString n then "Name must be at least 2 characters"
               else Zod.invalidTypeMessage "string" n]) /\
      messagesAt "email" r =
        (if emailValid e then []
         else [if Value.isString e then "Email must be valid"
               else Zod.invalidTypeMessage "string" e]) /\
      isSuccess r = nameValid n && emailValid e /\
      Zod.invalidTypeMessage "string" JUndefined = "Required"
  | _ =>
      r = Zod.Failure [{| Zod.code := Zod.invalid_type; Zod.path := [];
                          Zod.message := Zod.invalidTypeMessage "object" input |}]
  end.
Proof.
  destruct input as [| | | | |items|props]; try reflexivity.
  cbv zeta. rewrite safeParse_userSchema.
  destruct (Value.get props "name") as [| | | |n| |];
    destruct (Value.get props "email") as [| | | |e| |]; simpl;
    try destruct (String.length n <? 2)%nat;
    try destruct (Zod.isEmail e);
    repeat split; reflexivity.
Qed.

(** C4, as stated, fails: a body without a name fails the name field
    with the message "Required", not with the message of the length
    check. *)
Lemma userSchema_missing_name_message :
  messagesAt "name"
    (Zod.safeParse userSchema (JObj [("email", JStr "a@b.com")]))
  = ["Required"] /\
  messagesAt "name"
    (Zod.safeParse userSchema (JObj [("email", JStr "a@b.com")]))
  <> ["Name must be at least 2 characters"].
Proof. split; [reflexivity|discriminate]. Qed.

(* ===================================================================== *)
(** ** Numeric strings *)
(* ===================================================================== *)

Section Numerals.

Ltac by_cases_on c H :=
  destruct c as [[] [] [] [] [] [] [] []];
  try (vm_compute in H; discriminate H);
  vm_compute; repeat split; congruence.

Lemma digit_facts c :
  JS.isDigit c = true ->
  JS.isWhiteSpace c = false /\
  JS.eqChar c "+" = false /\ JS.eqChar c "-" = false /\
  JS.eqChar c "." = false /\
  JS.eqChar c "x" = false /\ JS.eqChar c "X" = false /\
  JS.eqChar c "o" = false /\ JS.eqChar c "O" = false /\
  JS.eqChar c "b" = false /\ JS.eqChar c "B" = false /\
  JS.isRadixDigit 10 c = true /\
  c <> "I"%char.
Proof. intros H. by_cases_on c H. Qed.

Lemma allChars_app p a b :
  JS.allChars p (a +:+ b) = JS.allChars p a && JS.allChars p b.
Proof.
  induction a as [|c a IH]; simpl; [reflexivity|].
  rewrite IH. apply andb_assoc.
Qed.

Lemma trimEnd_id s :
  JS.allChars (fun c => negb (JS.isWhiteSpace c)) s = true -> JS.trimEnd s = s.
Proof.
  induction s as [|c r IH]; simpl; [reflexivity|].
  intros [Hc Hr]%andb_true_iff. rewrite (IH Hr).
  apply negb_true_iff in Hc. rewrite Hc. destruct r; reflexivity.
Qed.

Lemma trimStart_id c r :
  JS.isWhiteSpace c = false -> JS.trimStart (String c r) = String c r.
Proof. intros H. simpl. rewrite H. reflexivity. Qed.

Lemma allChars_weaken (p q : ascii -> bool) s :
  (forall c, p c = true -> q c = true) ->
  JS.allChars p s = true -> JS.allChars q s = true.
Proof.
  intros Hpq. induction s as [|c r IH]; simpl; [reflexivity|].
  intros [Hc Hr]%andb_true_iff. rewrite (Hpq c Hc), (IH Hr). reflexivity.
Qed.

Lemma digits_noSpace s :
  allDigits s = true ->
  JS.allChars (fun c => negb (JS.isWhiteSpace c)) s = true.
Proof.
  apply allChars_weaken. intros c Hc.
  destruct (digit_facts c Hc) as [-> _]. reflexivity.
Qed.

(** [span] stops at the first character that fails the test. *)
Lemma span_app p q a c r :
  (forall x, p x = true -> q x = true) ->
  JS.allChars p a = true -> q c = false ->
  JS.span q (a +:+ String c r) = (a, String c r).
Proof.
  intros Hpq Ha Hc. induction a as [|x a IH]; simpl.
  - rewrite Hc. reflexivity.
  - simpl in Ha. apply andb_true_iff in Ha as [Hx Ha].
    rewrite (Hpq x Hx), (IH Ha). reflexivity.
Qed.

Lemma span_all p q a :
  (forall x, p x = true -> q x = true) ->
  JS.allChars p a = true -> JS.span q a = (a, EmptyString).
Proof.
  intros Hpq Ha. induction a as [|x a IH]; simpl; [reflexivity|].
  simpl in Ha. apply andb_true_iff in Ha as [Hx Ha].
  rewrite (Hpq x Hx), (IH Ha). reflexivity.
Qed.

Lemma digit_radix10 c : JS.isDigit c = true -> JS.isRadixDigit 10 c = true.
Proof. intros H. apply (digit_facts c H). Qed.

Lemma digitValue_range c :
  JS.isDigit c = true -> exists d, JS.digitValue c = Some d /\ 0 <= d < 10.
Proof.
  intros H. unfold JS.digitValue. unfold JS.isDigit in H. rewrite H.
  eexists; split; [reflexivity|].
  unfold JS.between in H. apply andb_true_iff in H as [H1 H2]. lia.
Qed.

(** Reading digits on top of an accumulator shifts the accumulator. *)
Lemma radixValueFrom_shift s : forall acc,
  JS.radixValueFrom 10 acc s =
  acc * 10 ^ Z.of_nat (String.length s) + JS.radixValueFrom 10 0 s.
Proof.
  induction s as [|c r IH]; intros acc.
  - simpl. lia.
  - cbn [JS.radixValueFrom String.length].
    rewrite (IH (acc * 10 + _)), (IH (0 * 10 + _)).
    rewrite Nat2Z.inj_succ, Z.pow_succ_r by lia. ring.
Qed.

Lemma radixValue_bound s :
  allDigits s = true ->
  0 <= JS.radixValue 10 s < 10 ^ Z.of_nat (String.length s).
Proof.
  unfold JS.radixValue. induction s as [|c r IH]; intros Hs.
  - simpl. lia.
  - simpl in Hs. apply andb_true_iff in Hs as [Hc Hr].
    destruct (digitValue_range c Hc) as (d & Hd & Hrange).
    cbn [JS.radixValueFrom String.length]. rewrite Hd, radixValueFrom_shift.
    specialize (IH Hr).
    rewrite Nat2Z.inj_succ, Z.pow_succ_r by lia. nia.
Qed.

Lemma radixValue_app ip fp :
  JS.radixValue 10 (ip +:+ fp) =
  JS.radixValue 10 ip * 10 ^ Z.of_nat (String.length fp) + JS.radixValue 10 fp.
Proof.
  unfold JS.radixValue.
  assert (Happ : forall acc, JS.radixValueFrom 10 acc (ip +:+ fp) =
                 JS.radixValueFrom 10 (JS.radixValueFrom 10 acc ip) fp).
  { induction ip as [|c r IH]; intros acc; simpl; [reflexivity|]. apply IH. }
  rewrite Happ. apply radixValueFrom_shift.
Qed.

(** What follows the first digit of a plain decimal is a digit or the
    dot, never the letter of a radix prefix. *)
Lemma second_char_plain ip' fp :
  allDigits ip' = true ->
  exists p r, ip' +:+ "." +:+ fp = String p r /\
    JS.eqChar p "x" || JS.eqChar p "X" = false /\
    JS.eqChar p "o" || JS.eqChar p "O" = false /\
    JS.eqChar p "b" || JS.eqChar p "B" = false.
Proof.
  intros H. destruct ip' as [|c2 r].
  - exists "."%char, fp. repeat split; reflexivity.
  - simpl in H. apply andb_true_iff in H as [Hc _].
    exists c2, (r +:+ "." +:+ fp).
    destruct (digit_facts c2 Hc) as (_ & _ & _ & _ & -> & -> & -> & -> & -> & -> & _).
    repeat split; reflexivity.
Qed.

Lemma unsigned_plain ip fp :
  allDigits ip = true -> ip <> "" -> allDigits fp = true ->
  JS.strUnsignedDecimalLiteral (ip +:+ "." +:+ fp) =
  JS.Fin false (JS.radixValue 10 (ip +:+ fp)) (- Z.of_nat (String.length fp)).
Proof.
  intros Hip Hne Hfp. unfold JS.strUnsignedDecimalLiteral.
  destruct ip as [|c ip']; [contradiction|].
  assert (Hc : JS.isDigit c = true).
  { simpl in Hip. apply andb_true_iff in Hip. tauto. }
  replace (String.eqb (String c ip' +:+ "." +:+ fp) "Infinity") with false.
  2:{ symmetry. apply String.eqb_neq. simpl. intros [= E _].
      destruct (digit_facts c Hc) as (_&_&_&_&_&_&_&_&_&_&_&HI). contradiction. }
  change ("." +:+ fp) with (String "." fp).
  rewrite (span_app JS.isDigit JS.isDigit (String c ip') "." fp)
    by (auto || reflexivity).
  change (JS.eqChar "." ".") with true. cbv iota.
  rewrite (span_all JS.isDigit JS.isDigit fp) by auto.
  simpl. reflexivity.
Qed.

Lemma plain_noSpace neg ip fp :
  allDigits ip = true -> allDigits fp = true ->
  JS.allChars (fun c => negb (JS.isWhiteSpace c)) (plainDecimal neg ip fp) = true.
Proof.
  intros Hip Hfp. unfold plainDecimal.
  rewrite !allChars_app, (digits_noSpace ip Hip), (digits_noSpace fp Hfp).
  destruct neg; reflexivity.
Qed.

Lemma trim_plain neg ip fp :
  allDigits ip = true -> allDigits fp = true ->
  JS.trimStart (plainDecimal neg ip fp) = plainDecimal neg ip fp /\
  JS.trim (plainDecimal neg ip fp) = plainDecimal neg ip fp.
Proof.
  intros Hip Hfp.
  pose proof (plain_noSpace neg ip fp Hip Hfp) as Hall.
  assert (Hs : JS.trimStart (plainDecimal neg ip fp) = plainDecimal neg ip fp).
  { destruct (plainDecimal neg ip fp) as [|c r]; [reflexivity|].
    simpl in Hall. apply andb_true_iff in Hall as [Hc _].
    apply trimStart_id, negb_true_iff, Hc. }
  split; [exact Hs|]. unfold JS.trim. rewrite Hs. apply trimEnd_id, Hall.
Qed.

(** The value of a plain decimal: all its digits, scaled by the number
    of fraction digits. *)
Lemma number_plain neg ip fp :
  allDigits ip = true -> ip <> "" -> allDigits fp = true ->
  JS.mathematicalValue (plainDecimal neg ip fp) =
  JS.Fin neg (JS.radixValue 10 (ip +:+ fp)) (- Z.of_nat (String.length fp)).
Proof.
  intros Hip Hne Hfp. unfold JS.mathematicalValue.
  destruct (trim_plain neg ip fp Hip Hfp) as [_ ->].
  pose proof (unsigned_plain ip fp Hip Hne Hfp) as Hu.
  destruct ip as [|c ip']; [contradiction|].
  assert (Hc : JS.isDigit c = true /\ allDigits ip' = true).
  { simpl in Hip. apply andb_true_iff in Hip. exact Hip. }
  destruct Hc as [Hc Hip'].
  destruct (second_char_plain ip' fp Hip') as (p & r & Hpr & Hx & Ho & Hb).
  destruct (digit_facts c Hc) as (_ & Hplus & Hminus & _).
  destruct neg; unfold plainDecimal.
  - change ("-" +:+ String c ip' +:+ "." +:+ fp)
      with (String "-" (String c (ip' +:+ "." +:+ fp))).
    change (String c ip' +:+ "." +:+ fp)
      with (String c (ip' +:+ "." +:+ fp)) in Hu.
    cbn [JS.isEmpty JS.nonDecimalIntegerLiteral JS.strDecimalLiteral].
    change (JS.eqChar "-" "0") with false.
    change (JS.eqChar "-" "+") with false.
    change (JS.eqChar "-" "-") with true.
    cbn [negb orb]. cbv iota. rewrite Hu. reflexivity.
  - change ("" +:+ String c ip' +:+ "." +:+ fp)
      with (String c (ip' +:+ "." +:+ fp)).
    change (String c ip' +:+ "." +:+ fp)
      with (String c (ip' +:+ "." +:+ fp)) in Hu.
    rewrite Hpr in *.
    cbn [JS.isEmpty JS.nonDecimalIntegerLiteral JS.strDecimalLiteral].
    rewrite Hx, Ho, Hb, Hplus, Hminus.
    change (0 =? 0) with true. rewrite orb_true_r. cbv iota. exact Hu.
Qed.

(** [parseInt] of a plain decimal: its integer digits, with the sign. *)
Lemma parseInt_plain neg ip fp :
  allDigits ip = true -> ip <> "" -> allDigits fp = true ->
  JS.parseInt (Some (plainDecimal neg ip fp)) =
  Some (JS.toDouble ((if neg then -1 else 1) * JS.radixValue 10 ip)).
Proof.
  intros Hip Hne Hfp. unfold JS.parseInt.
  destruct (trim_plain neg ip fp Hip Hfp) as [-> _].
  assert (Hspan : JS.span (JS.isRadixDigit 10) (ip +:+ String "." fp)
                  = (ip, String "." fp)).
  { apply (span_app JS.isDigit); [exact digit_radix10|exact Hip|reflexivity]. }
  destruct ip as [|c ip']; [contradiction|].
  assert (Hc : JS.isDigit c = true /\ allDigits ip' = true).
  { simpl in Hip. apply andb_true_iff in Hip. exact Hip. }
  destruct Hc as [Hc Hip'].
  destruct (second_char_plain ip' fp Hip') as (p & r & Hpr & Hx & _).
  destruct (digit_facts c Hc) as (_ & Hplus & Hminus & _).
  assert (Hrest : (let '(R, S2) :=
            match String c ip' +:+ String "." fp with
            | String c0 (String p0 r0) =>
                if JS.eqChar c0 "0" && (JS.eqChar p0 "x" || JS.eqChar p0 "X")
                then (16, r0) else (10, String c ip' +:+ String "." fp)
            | _ => (10, String c ip' +:+ String "." fp)
            end in
          let '(Zs, _) := JS.span (JS.isRadixDigit R) S2 in
          if JS.isEmpty Zs then None
          else Some (JS.toDouble ((if neg then -1 else 1) * JS.radixValue R Zs)))
          = Some (JS.toDouble ((if neg then -1 else 1) * JS.radixValue 10 (String c ip')))).
  { change (String c ip' +:+ String "." fp)
      with (String c (ip' +:+ "." +:+ fp)) at 1.
    rewrite Hpr, Hx, andb_false_r. rewrite Hspan. reflexivity. }
  destruct neg; unfold plainDecimal.
  - change ("-" +:+ String c ip' +:+ "." +:+ fp)
      with (String "-" (String c ip' +:+ String "." fp)).
    change (JS.eqChar "-" "-") with true. cbv iota. exact Hrest.
  - change ("" +:+ String c ip' +:+ "." +:+ fp)
      with (String c (ip' +:+ String "." fp)).
    cbv beta iota. rewrite Hminus, Hplus. exact Hrest.
Qed.

(** The value of a plain decimal, truncated, is the value of its
    integer digits. *)
Lemma truncate_plain neg ip fp :
  allDigits ip = true -> ip <> "" -> allDigits fp = true ->
  JS.truncate (JS.mathematicalValue (plainDecimal neg ip fp)) =
  Some ((if neg then -1 else 1) * JS.radixValue 10 ip).
Proof.
  intros Hip Hne Hfp.
  rewrite number_plain by assumption.
  unfold JS.truncate. rewrite radixValue_app.
  pose proof (radixValue_bound fp Hfp) as Hb.
  set (k := Z.of_nat (String.length fp)) in *.
  assert (Hk : 0 <= k) by (unfold k; lia).
  assert (Hval : (if 0 <=? - k
                  then (JS.radixValue 10 ip * 10 ^ k + JS.radixValue 10 fp) * 10 ^ (- k)
                  else (JS.radixValue 10 ip * 10 ^ k + JS.radixValue 10 fp) / 10 ^ (- - k))
                 = JS.radixValue 10 ip).
  { destruct (Z.leb_spec 0 (- k)).
    - assert (k = 0) by lia. replace (- k) with 0 by lia.
      replace k with 0 in * by lia. simpl in *. lia.
    - rewrite Z.opp_involutive.
      rewrite Z.div_add_l by (apply Z.pow_nonzero; lia).
      rewrite Z.div_small by exact Hb. lia. }
  rewrite Hval. destruct neg; f_equal; lia.
Qed.

(** Below 2^53 an integer is its own double. *)
Lemma toDouble_exact n : Z.abs n < 2 ^ 53 -> JS.toDouble n = JS.Finite n.
Proof.
  intros H. unfold JS.toDouble, JS.roundNatural.
  destruct (Z.ltb_spec n 0).
  - destruct (Z.ltb_spec (- n) (2 ^ 53)); [|lia]. f_equal. lia.
  - destruct (Z.ltb_spec n (2 ^ 53)); [reflexivity|lia].
Qed.

End Numerals.

(* ===================================================================== *)
(** ** The handlers *)
(* ===================================================================== *)

Section Handlers.

(** The test [!id || isNaN(id)] is the negation of the rule of the spec. *)
Lemma idRejected_spec id : idRejected id = false <-> idAccepted id.
Proof.
  unfold idRejected, idAccepted. destruct id as [[|c r]|]; simpl.
  - split; [discriminate|]. intros (s & [= <-] & Hne & _). contradiction.
  - unfold JS.isNaN. split.
    + intros H. exists (String c r). split; [reflexivity|]. split; [discriminate|].
      intros E. rewrite E in H. discriminate.
    + intros (s & [= <-] & _ & Hnum).
      destruct (JS.mathematicalValue (String c r)); [contradiction|reflexivity..].
  - split; [discriminate|]. intros (s & [=] & _).
Qed.

Lemma idRejected_true id : ~ idAccepted id -> idRejected id = true.
Proof.
  intros H. destruct (idRejected id) eqn:E; [reflexivity|].
  exfalso. apply H, idRejected_spec, E.
Qed.

Lemma findById_none n us :
  (forall u, u ∈ us -> Prisma.id u <> n) -> Prisma.findById n us = None.
Proof.
  intros H. unfold Prisma.findById. induction us as [|u us IH]; simpl; [reflexivity|].
  destruct (Z.eqb_spec (Prisma.id u) n) as [E|_].
  - exfalso. apply (H u); [left|exact E].
  - apply IH. intros v Hv. apply H. right. exact Hv.
Qed.

Lemma findById_some n us u :
  u ∈ us -> Prisma.id u = n ->
  exists u', Prisma.findById n us = Some u' /\ u' ∈ us /\ Prisma.id u' = n.
Proof.
  unfold Prisma.findById. induction us as [|v us IH]; intros Hin Hid.
  - inversion Hin.
  - simpl. destruct (Z.eqb_spec (Prisma.id v) n) as [E|Hne].
    + exists v. split; [reflexivity|]. split; [left|exact E].
    + apply elem_of_cons in Hin as [->|Hin]; [contradiction|].
      destruct (IH Hin Hid) as (u' & Hf & Hu' & Hid').
      exists u'. split; [exact Hf|]. split; [right; exact Hu'|exact Hid'].
Qed.

Lemma unique_id us u u' :
  NoDup (map Prisma.id us) -> u ∈ us -> u' ∈ us ->
  Prisma.id u = Prisma.id u' -> u = u'.
Proof.
  induction us as [|v us IH]; intros Hnd Hu Hu'; [inversion Hu|].
  simpl in Hnd. apply NoDup_cons in Hnd as [Hv Hnd]. intros Hid.
  apply elem_of_cons in Hu as [->|Hu]; apply elem_of_cons in Hu' as [->|Hu'].
  - reflexivity.
  - exfalso. apply Hv. rewrite Hid. apply list_elem_of_fmap_2. exact Hu'.
  - exfalso. apply Hv. rewrite <- Hid. apply list_elem_of_fmap_2. exact Hu.
  - apply IH; assumption.
Qed.

(** A query that is missing, no string, or blank is refused before the
    client is called. *)
Lemma searchUsers_refuses req db :
  match query_query req with
  | JStr q => JS.trim q = ""
  | _ => True
  end ->
  run (UserController.searchUsers req) db =
  (res 400 (JsonError "Query parameter is required"), db, []).
Proof.
  unfold UserController.searchUsers.
  destruct (query_query req) as [| | | |q| |]; try reflexivity.
  intros ->. rewrite orb_true_r. reflexivity.
Qed.

End Handlers.

(** C1 (the code departs from it): the record named "zed" contains the
    query "zed", so the search of the spec returns it; the handler
    answers 200 with no record, because its filter also asks for the
    column to sort no later than the word "insensitive". *)
Theorem searchUsers_misses_match (ci : bool) :
  let zed := {| Prisma.id := 1; Prisma.name := "zed"; Prisma.email := "zed@z.zz" |} in
  let db := {| Prisma.users := [zed]; Prisma.autoincrement := 2;
               Prisma.outage := None; Prisma.collation_ci := ci |} in
  let req := {| params_id := None; query_query := JStr "zed"; body := JUndefined |} in
  List.filter (searchMatches "zed") (Prisma.users db) = [zed] /\
  (run (UserController.searchUsers req) db).1.1 = res 200 (Json (Prisma.VUsers [])).
Proof. destruct ci; split; reflexivity. Qed.

(** C5 (amended): each of getUser, updateUser and deleteUser accepts the
    id exactly when it is present, not empty, and its string form
    converts to a number; otherwise it answers 400 "Invalid user ID"
    and the client is not called.  An accepted id reaches the client as
    [parseInt] of it; for a plain decimal numeral, with or without
    fraction digits after its dot, that is the double nearest to the
    value of the numeral truncated toward zero, and the truncated value
    itself when the integer part is below 2^53. *)
Theorem id_check (req : Request) :
  (~ idAccepted (params_id req) ->
   forall db,
     run (UserController.getUser req) db
       = (res 400 (JsonError "Invalid user ID"), db, []) /\
     run (UserController.updateUser req) db
       = (res 400 (JsonError "Invalid user ID"), db, []) /\
     run (UserController.deleteUser req) db
       = (res 400 (JsonError "Invalid user ID"), db, [])) /\
  (idAccepted (params_id req) ->
     calls (UserController.getUser req)
       = [Prisma.findUnique (JS.parseInt (params_id req))] /\
     calls (UserController.deleteUser req)
       = [Prisma.delete (JS.parseInt (params_id req))] /\
     calls (UserController.updateUser req)
       = match Zod.safeParse userSchema (body req) with
         | Zod.Success data => [Prisma.update (JS.parseInt (params_id req)) data]
         | Zod.Failure _ => []
         end /\
     UserController.updateUser req <> Done (res 400 (JsonError "Invalid user ID"))) /\
  (forall neg ip fp,
     params_id req = Some (plainDecimal neg ip fp) ->
     allDigits ip = true -> ip <> "" -> allDigits fp = true ->
     let n := (if neg then -1 else 1) * JS.radixValue 10 ip in
     idAccepted (params_id req) /\
     JS.truncate (JS.mathematicalValue (plainDecimal neg ip fp)) = Some n /\
     JS.parseInt (params_id req) = Some (JS.toDouble n) /\
     (JS.radixValue 10 ip < 2 ^ 53 ->
      JS.parseInt (params_id req) = Some (JS.Finite n))).
Proof.
  split; [|split].
  - intros Hno db. apply idRejected_true in Hno.
    unfold UserController.getUser, UserController.updateUser,
      UserController.deleteUser.
    fold (idRejected (params_id req)). rewrite Hno. auto.
  - intros Hok. apply idRejected_spec in Hok.
    unfold UserController.getUser, UserController.updateUser,
      UserController.deleteUser.
    fold (idRejected (params_id req)). rewrite Hok.
    repeat split; try reflexivity.
    + destruct (Zod.safeParse userSchema (body req)); reflexivity.
    + destruct (Zod.safeParse userSchema (body req)); discriminate.
  - intros neg ip fp Hid Hip Hne Hfp n. rewrite Hid.
    split; [|split; [|split]].
    + exists (plainDecimal neg ip fp). split; [reflexivity|]. split.
      * unfold plainDecimal. destruct neg; [discriminate|].
        destruct ip; [contradiction|discriminate].
      * rewrite number_plain by assumption. discriminate.
    + apply truncate_plain; assumption.
    + apply parseInt_plain; assumption.
    + intros Hsmall. rewrite parseInt_plain by assumption.
      rewrite toDouble_exact; [reflexivity|].
      pose proof (radixValue_bound ip Hip) as Hb. subst n.
      destruct neg; lia.
Qed.

Lemma id_check_witness :
  (~ idAccepted (Some "abc") /\
   run (UserController.getUser (request (Some "abc") JUndefined)) dbWithAnn
   = (res 400 (JsonError "Invalid user ID"), dbWithAnn, [])) /\
  (idAccepted (Some "-3.75") /\
   calls (UserController.deleteUser (request (Some "-3.75") JUndefined))
   = [Prisma.delete (Some (JS.Finite (-3)))]) /\
  JS.parseInt (Some (plainDecimal true "3" "75")) = Some (JS.Finite (-3)) /\
  JS.parseInt (Some (plainDecimal false "9007199254740993" "5"))
  = Some (JS.toDouble 9007199254740993).
Proof.
  assert (Hno : ~ idAccepted (Some "abc")).
  { intros (s & [= <-] & _ & H). apply H. reflexivity. }
  assert (Hacc : idAccepted (Some "-3.75")).
  { exists "-3.75". split; [reflexivity|]. split; [discriminate|].
    vm_compute. discriminate. }
  split; [|split; [|split]].
  - split; [exact Hno|].
    exact (proj1 (proj1 (id_check (request (Some "abc") JUndefined)) Hno dbWithAnn)).
  - split; [exact Hacc|].
    exact (proj1 (proj2 (proj1 (proj2
             (id_check (request (Some "-3.75") JUndefined))) Hacc))).
  - refine (proj2 (proj2 (proj2 (proj2 (proj2
             (id_check (request (Some "-3.75") JUndefined)))
             true "3" "75" eq_refl eq_refl ltac:(discriminate) eq_refl))) _).
    vm_compute. reflexivity.
  - exact (proj1 (proj2 (proj2 (proj2 (proj2
             (id_check (request (Some "9007199254740993.5") JUndefined)))
             false "9007199254740993" "5" eq_refl eq_refl
             ltac:(discriminate) eq_refl)))).
Defined.

(** C5, as stated, fails: ".5" is accepted and is no integer, and the
    client receives NaN for it, not its truncation 0. *)
Lemma id_point5_not_truncated :
  let req := request (Some ".5") JUndefined in
  idAccepted (params_id req) /\
  JS.isInteger (JS.mathematicalValue ".5") = false /\
  JS.truncate (JS.mathematicalValue ".5") = Some 0 /\
  calls (UserController.getUser req) = [Prisma.findUnique None] /\
  calls (UserController.getUser req) <> [Prisma.findUnique (Some (JS.Finite 0))].
Proof.
  cbv zeta. split.
  - exists ".5". split; [reflexivity|]. split; [discriminate|].
    vm_compute. discriminate.
  - repeat split; try reflexivity. vm_compute. discriminate.
Qed.

(** C6 (amended): for every id that passes the check, getUser looks up
    the record whose identifier is [parseInt] of the id, and answers 404
    "User not found" when the lookup finds none and 200 with the record
    when it finds one.  When [parseInt] of the id is an integer [n] and
    the database answers, that is 404 when no record has identifier [n]
    and 200 with the record when one has; when it is NaN the lookup is
    rejected and the answer is 500. *)
Theorem getUser_found_or_404 (req : Request) :
  idAccepted (params_id req) ->
  (exists k,
     UserController.getUser req
       = Await (Prisma.findUnique (JS.parseInt (params_id req))) k /\
     k (Prisma.Resolved Prisma.VNull) = res 404 (JsonError "User not found") /\
     forall u, k (Prisma.Resolved (Prisma.VUser u)) = res 200 (Json (Prisma.VUser u))) /\
  (forall db n,
     JS.parseInt (params_id req) = Some (JS.Finite n) ->
     Prisma.outage db = None ->
     ((forall u, u ∈ Prisma.users db -> Prisma.id u <> n) ->
      run (UserController.getUser req) db
      = (res 404 (JsonError "User not found"), db,
         [Prisma.findUnique (Some (JS.Finite n))])) /\
     (forall u, u ∈ Prisma.users db -> Prisma.id u = n ->
      exists u', u' ∈ Prisma.users db /\ Prisma.id u' = n /\
        run (UserController.getUser req) db
        = (res 200 (Json (Prisma.VUser u')), db,
           [Prisma.findUnique (Some (JS.Finite n))])) /\
     (forall u, NoDup (map Prisma.id (Prisma.users db)) ->
      u ∈ Prisma.users db -> Prisma.id u = n ->
      run (UserController.getUser req) db
      = (res 200 (Json (Prisma.VUser u)), db,
         [Prisma.findUnique (Some (JS.Finite n))]))) /\
  (forall db,
     JS.parseInt (params_id req) = None ->
     run (UserController.getUser req) db
     = (res 500 (JsonError "Internal Server Error"), db,
        [Prisma.findUnique None])).
Proof.
  intros Hok. apply idRejected_spec in Hok.
  unfold UserController.getUser. fold (idRejected (params_id req)).
  rewrite Hok. split; [|split].
  { eexists. split; [reflexivity|]. split; reflexivity. }
  - intros db n Hn Hup.
    rewrite Hn. unfold run, Prisma.exec. cbn [Prisma.integerId]. rewrite Hup.
    split; [|split].
    + intros Hnone. rewrite (findById_none n _ Hnone). reflexivity.
    + intros u Hu Hid.
      destruct (findById_some n _ u Hu Hid) as (u' & Hf & Hu' & Hid').
      exists u'. rewrite Hf. auto.
    + intros u Hnd Hu Hid.
      destruct (findById_some n _ u Hu Hid) as (u' & Hf & Hu' & Hid').
      rewrite Hf. rewrite (unique_id _ u u' Hnd Hu Hu') by congruence.
      reflexivity.
  - intros db Hnan. rewrite Hnan. reflexivity.
Qed.

Lemma getUser_found_or_404_witness :
  idAccepted (Some "7") /\
  run (UserController.getUser (request (Some "7") JUndefined)) dbWithAnn
  = (res 200 (Json (Prisma.VUser ann)), dbWithAnn,
     [Prisma.findUnique (Some (JS.Finite 7))]) /\
  run (UserController.getUser (request (Some "7") JUndefined))
      (Prisma.withUsers dbWithAnn [] 8)
  = (res 404 (JsonError "User not found"), Prisma.withUsers dbWithAnn [] 8,
     [Prisma.findUnique (Some (JS.Finite 7))]).
Proof.
  assert (Hacc : idAccepted (Some "7")).
  { exists "7". split; [reflexivity|]. split; [discriminate|].
    vm_compute. discriminate. }
  split; [exact Hacc|]. split.
  - refine (proj2 (proj2 (proj1 (proj2 (getUser_found_or_404
              (request (Some "7") JUndefined) Hacc)) dbWithAnn 7 eq_refl eq_refl))
            ann _ _ eq_refl).
    + apply (bool_decide_unpack _). vm_compute. exact I.
    + left.
  - refine (proj1 (proj1 (proj2 (getUser_found_or_404
              (request (Some "7") JUndefined) Hacc))
              (Prisma.withUsers dbWithAnn [] 8) 7 eq_refl eq_refl) _).
    intros u Hu. inversion Hu.
Defined.

(** C6, as stated, fails.  The id "7e2" passes the check and denotes
    700; no record has identifier 700, and getUser answers 200 with
    record 7, because [parseInt] stops at the letter.  The id ".5"
    passes the check too; no record has such an identifier, and getUser
    answers 500, because [parseInt] of it is NaN. *)
Lemma getUser_valid_id_not_404 :
  idAccepted (Some "7e2") /\
  JS.truncate (JS.mathematicalValue "7e2") = Some 700 /\
  (forall u, u ∈ Prisma.users dbWithAnn -> Prisma.id u <> 700) /\
  run (UserController.getUser (request (Some "7e2") JUndefined)) dbWithAnn
  = (res 200 (Json (Prisma.VUser ann)), dbWithAnn,
     [Prisma.findUnique (Some (JS.Finite 7))]) /\
  idAccepted (Some ".5") /\
  Prisma.outage dbWithAnn = None /\
  run (UserController.getUser (request (Some ".5") JUndefined)) dbWithAnn
  = (res 500 (JsonError "Internal Server Error"), dbWithAnn,
     [Prisma.findUnique None]).
Proof.
  split; [|split; [|split; [|split; [|split; [|split]]]]]; try reflexivity.
  - exists "7e2". split; [reflexivity|]. split; [discriminate|].
    vm_compute. discriminate.
  - intros u [->|H]%elem_of_cons; [discriminate|inversion H].
  - exists ".5". split; [reflexivity|]. split; [discriminate|].
    vm_compute. discriminate.
Qed.

(** C7: for every id that passes the check, deleteUser answers 204 with
    an empty body when the delete succeeds; when it fails it answers
    500 with the cause of the error if the error has one, and with
    "Internal Server Error" otherwise. *)
Theorem deleteUser_outcomes (req : Request) :
  idAccepted (params_id req) ->
  exists k,
    UserController.deleteUser req
      = Await (Prisma.delete (JS.parseInt (params_id req))) k /\
    (forall v, k (Prisma.Resolved v) = res 204 Empty) /\
    (forall e cause,
       Prisma.meta_cause e = Some cause -> cause <> "" ->
       k (Prisma.Rejected e) = res 500 (JsonError cause)) /\
    (forall e,
       Prisma.meta_cause e = None \/ Prisma.meta_cause e = Some "" ->
       k (Prisma.Rejected e) = res 500 (JsonError "Internal Server Error")) /\
    (forall db,
       run (UserController.deleteUser req) db
       = (k (Prisma.exec (Prisma.delete (JS.parseInt (params_id req))) db).1,
          (Prisma.exec (Prisma.delete (JS.parseInt (params_id req))) db).2,
          [Prisma.delete (JS.parseInt (params_id req))])).
Proof.
  intros Hok. apply idRejected_spec in Hok.
  unfold UserController.deleteUser. fold (idRejected (params_id req)).
  rewrite Hok. eexists. split; [reflexivity|].
  split; [reflexivity|]. split; [|split].
  - intros e cause Hc Hne. rewrite Hc. destruct cause; [contradiction|reflexivity].
  - intros e [Hc|Hc]; rewrite Hc; reflexivity.
  - intros db. unfold run.
    destruct (Prisma.exec _ db) as [o db']. reflexivity.
Qed.

Lemma deleteUser_outcomes_witness :
  idAccepted (Some "7") /\
  (run (UserController.deleteUser (request (Some "7") JUndefined)) dbWithAnn).1.1
  = res 204 Empty /\
  (run (UserController.deleteUser (request (Some "7") JUndefined))
       (Prisma.withUsers dbWithAnn [] 8)).1.1
  = res 500 (JsonError "Record to delete does not exist.").
Proof.
  assert (Hacc : idAccepted (Some "7")).
  { exists "7". split; [reflexivity|]. split; [discriminate|].
    vm_compute. discriminate. }
  split; [exact Hacc|].
  destruct (deleteUser_outcomes (request (Some "7") JUndefined) Hacc)
    as (k & Hk & Hok & Hcause & Hgen & Hrun).
  rewrite !Hrun. split.
  - apply Hok.
  - apply Hcause; [reflexivity|discriminate].
Defined.

(** C8 (amended): when the call on the client fails, every handler
    answers 500 with an error body; the message is the message of the
    failure, if it has one, in createUser, the cause of the failure, if
    it has one, in deleteUser, and "Internal Server Error" in every
    other case. *)
Theorem persistence_failure_500 (h : Routes.Handle) (req : Request)
  (call : Prisma.Call) (k : Prisma.Outcome -> Response) (e : Prisma.PrismaError) :
  Routes.handler h req = Await call k ->
  k (Prisma.Rejected e) =
  res 500 (JsonError
    match h with
    | Routes.createUser =>
        match Prisma.message e with
        | Some (String _ _ as m) => m
        | _ => "Internal Server Error"
        end
    | Routes.deleteUser =>
        match Prisma.meta_cause e with
        | Some (String _ _ as c) => c
        | _ => "Internal Server Error"
        end
    | _ => "Internal Server Error"
    end).
Proof.
  destruct h; simpl;
    unfold UserController.createUser, UserController.listUsers,
      UserController.searchUsers, UserController.getUser,
      UserController.updateUser, UserController.deleteUser;
    repeat match goal with
           | |- context [match ?x with _ => _ end] =>
               lazymatch x with
               | Prisma.message _ => fail
               | Prisma.meta_cause _ => fail
               | _ => destruct x
               end
           end;
    try discriminate; intros [= <- <-]; reflexivity.
Qed.

Lemma persistence_failure_500_witness :
  (run (UserController.createUser
          (request None (JObj [("name", JStr "Al"); ("email", JStr "a@b.com")])))
       dbDown).1.1
  = res 500 (JsonError "Can't reach database server").
Proof.
  exact (persistence_failure_500 Routes.createUser
           (request None (JObj [("name", JStr "Al"); ("email", JStr "a@b.com")]))
           _ _ serverDown eq_refl).
Defined.

(** C8, as stated, fails: the lookup of getUser fails with a message,
    and the answer carries "Internal Server Error" instead of it. *)
Lemma getUser_hides_failure_message :
  Prisma.exec (Prisma.findUnique (Some (JS.Finite 7))) dbDown = (Prisma.Rejected serverDown, dbDown) /\
  Prisma.message serverDown = Some "Can't reach database server" /\
  run (UserController.getUser (request (Some "7") JUndefined)) dbDown
  = (res 500 (JsonError "Internal Server Error"), dbDown, [Prisma.findUnique (Some (JS.Finite 7))]) /\
  (run (UserController.getUser (request (Some "7") JUndefined)) dbDown).1.1
  <> res 500 (JsonError "Can't reach database server").
Proof. repeat split; try reflexivity. vm_compute. discriminate. Qed.

Section Bodies.

Lemma fieldMessages_absent field error :
  Forall (fun i => Zod.path i <> [field]) error -> fieldMessages field error = [].
Proof.
  unfold fieldMessages. induction 1 as [|i error Hi _ IH]; simpl; [reflexivity|].
  rewrite bool_decide_eq_false_2 by assumption. exact IH.
Qed.

(** The issues of [userSchema] sit at the root, at the name or at the
    email. *)
Lemma userSchema_paths b error :
  Zod.safeParse userSchema b = Zod.Failure error ->
  Forall (fun i => Zod.path i = [] \/ Zod.path i = ["name"] \/ Zod.path i = ["email"])
         error.
Proof.
  assert (Hall : forall l : Zod.ZodError,
             forallb (fun i => bool_decide (Zod.path i = [] \/ Zod.path i = ["name"]
                                            \/ Zod.path i = ["email"])) l = true ->
             Forall (fun i => Zod.path i = [] \/ Zod.path i = ["name"]
                              \/ Zod.path i = ["email"]) l).
  { intros l H. apply Forall_forall. intros i Hi.
    rewrite forallb_forall in H. apply list_elem_of_In in Hi.
    exact (proj1 (bool_decide_eq_true _) (H i Hi)). }
  destruct b as [| | | | |items|props];
    try (intros [= <-]; apply Hall; reflexivity).
  rewrite safeParse_userSchema.
  destruct (Value.get props "name") as [| | | |n| |];
    destruct (Value.get props "email") as [| | | |e| |]; simpl;
    try destruct (String.length n <? 2)%nat;
    try destruct (Zod.isEmail e);
    try discriminate; intros [= <-]; apply Hall; reflexivity.
Qed.

Lemma fieldMessages_userSchema b error field :
  Zod.safeParse userSchema b = Zod.Failure error ->
  field <> "name" -> field <> "email" -> fieldMessages field error = [].
Proof.
  intros Hp Hn He. apply fieldMessages_absent.
  eapply Forall_impl; [exact (userSchema_paths b error Hp)|].
  simpl. intros i [H|[H|H]]; rewrite H; congruence.
Qed.

(** A failure on one of two bodies with the same name and email is a
    failure on the other. *)
Lemma failure_fields b1 b2 :
  fieldOf b1 "name" = fieldOf b2 "name" ->
  fieldOf b1 "email" = fieldOf b2 "email" ->
  isSuccess (Zod.safeParse userSchema b1) = isSuccess (Zod.safeParse userSchema b2).
Proof.
  intros Hn He.
  destruct (isSuccess (Zod.safeParse userSchema b1)) eqn:E1.
  - rewrite <- (safeParse_userSchema_fields b1 b2 E1 Hn He). symmetry. exact E1.
  - destruct (isSuccess (Zod.safeParse userSchema b2)) eqn:E2; [|reflexivity].
    rewrite <- (safeParse_userSchema_fields b2 b1 E2) in E1 by congruence.
    congruence.
Qed.

End Bodies.

(** C2 (amended): for every body that fails validation, createUser, and
    updateUser when the id passes its check, answer 400 with the
    formatted errors, one message for each field that validation
    reports, and the client is not called, so that the database is as
    before; updateUser with an id that fails the check answers 400
    "Invalid user ID", again without a call. *)
Theorem invalid_body_rejected (req : Request) (error : Zod.ZodError) :
  Zod.safeParse userSchema (body req) = Zod.Failure error ->
  (forall db,
     run (UserController.createUser req) db
     = (res 400 (JsonErrors (formatZodError error)), db, [])) /\
  (idAccepted (params_id req) ->
   forall db,
     run (UserController.updateUser req) db
     = (res 400 (JsonErrors (formatZodError error)), db, [])) /\
  (forall field,
     formatZodError error !! field =
     match fieldMessages field error with
     | [] => None
     | msgs => Some (display field msgs)
     end) /\
  (forall props,
     body req = JObj props ->
     (is_Some (formatZodError error !! "name")
      <-> nameValid (Value.get props "name") = false) /\
     (is_Some (formatZodError error !! "email")
      <-> emailValid (Value.get props "email") = false)) /\
  (~ idAccepted (params_id req) ->
   forall db,
     run (UserController.updateUser req) db
     = (res 400 (JsonError "Invalid user ID"), db, [])).
Proof.
  intros Hfail. split; [|split; [|split; [|split]]].
  5:{ intros Hno db. apply idRejected_true in Hno.
      unfold UserController.updateUser. fold (idRejected (params_id req)).
      rewrite Hno. reflexivity. }
  - intros db. unfold UserController.createUser. rewrite Hfail. reflexivity.
  - intros Hok db. apply idRejected_spec in Hok.
    unfold UserController.updateUser. fold (idRejected (params_id req)).
    rewrite Hok, Hfail. reflexivity.
  - intros field. rewrite formatZodError_lookup.
    destruct (String.eqb_spec field "_errors") as [->|_]; [|reflexivity].
    rewrite (fieldMessages_userSchema _ _ "_errors" Hfail) by discriminate.
    reflexivity.
  - intros props Hbody. rewrite Hbody, safeParse_userSchema in Hfail.
    rewrite !formatZodError_lookup.
    destruct (Value.get props "name") as [| | | |n| |];
      destruct (Value.get props "email") as [| | | |e| |]; simpl in *;
      try destruct (String.length n <? 2)%nat;
      try destruct (Zod.isEmail e);
      try discriminate; injection Hfail as <-;
      (split; split; first [ reflexivity | discriminate | intros _; eexists; reflexivity
                           | intros [? [=]] ]).
Qed.

Lemma invalid_body_rejected_witness :
  idAccepted (Some "7") /\
  run (UserController.updateUser (request (Some "7") (JObj [("name", JStr "A")])))
      dbWithAnn
  = (res 400 (JsonErrors (formatZodError
       [ {| Zod.code := Zod.too_small; Zod.path := ["name"];
            Zod.message := "Name must be at least 2 characters" |};
         {| Zod.code := Zod.invalid_type; Zod.path := ["email"];
            Zod.message := "Required" |} ])),
     dbWithAnn, []).
Proof.
  assert (Hacc : idAccepted (Some "7")).
  { exists "7". split; [reflexivity|]. split; [discriminate|].
    vm_compute. discriminate. }
  split; [exact Hacc|].
  exact (proj1 (proj2 (invalid_body_rejected
           (request (Some "7") (JObj [("name", JStr "A")])) _ eq_refl))
         Hacc dbWithAnn).
Defined.

(** C2, as stated, fails: with an id that does not pass the check,
    updateUser answers a body that fails validation with "Invalid user
    ID", not with the formatted errors. *)
Lemma updateUser_bad_id_bad_body :
  Zod.safeParse userSchema (JObj [])
  = Zod.Failure [ {| Zod.code := Zod.invalid_type; Zod.path := ["name"];
                     Zod.message := "Required" |};
                  {| Zod.code := Zod.invalid_type; Zod.path := ["email"];
                     Zod.message := "Required" |} ] /\
  UserController.updateUser (request (Some "abc") (JObj []))
  = Done (res 400 (JsonError "Invalid user ID")) /\
  forall errors,
    UserController.updateUser (request (Some "abc") (JObj []))
    <> Done (res 400 (JsonErrors errors)).
Proof. repeat split; try reflexivity. intros errors. discriminate. Qed.

(** C10: two requests whose bodies have the same name and the same
    email make the same calls on the client, in createUser and, with
    the same id, in updateUser; the data of a call has the name and
    the email and nothing else. *)
Theorem unknown_fields_stripped (req1 req2 : Request) :
  fieldOf (body req1) "name" = fieldOf (body req2) "name" ->
  fieldOf (body req1) "email" = fieldOf (body req2) "email" ->
  calls (UserController.createUser req1) = calls (UserController.createUser req2) /\
  (params_id req1 = params_id req2 ->
   calls (UserController.updateUser req1) = calls (UserController.updateUser req2)) /\
  (forall data,
     Prisma.create data ∈ calls (UserController.createUser req1) ->
     data = [("name", fieldOf (body req1) "name");
             ("email", fieldOf (body req1) "email")]) /\
  (forall id data,
     Prisma.update id data ∈ calls (UserController.updateUser req1) ->
     data = [("name", fieldOf (body req1) "name");
             ("email", fieldOf (body req1) "email")]).
Proof.
  intros Hn He.
  pose proof (failure_fields _ _ Hn He) as Hsame.
  assert (Heq : isSuccess (Zod.safeParse userSchema (body req1)) = true ->
                Zod.safeParse userSchema (body req1)
                = Zod.safeParse userSchema (body req2)).
  { intros H. apply safeParse_userSchema_fields; assumption. }
  unfold UserController.createUser, UserController.updateUser.
  split; [|split; [|split]].
  - destruct (Zod.safeParse userSchema (body req1)) as [d1|e1] eqn:E1.
    + rewrite <- (Heq eq_refl). reflexivity.
    + destruct (Zod.safeParse userSchema (body req2)); [discriminate|reflexivity].
  - intros <-. destruct (negb (JS.truthy (params_id req1)) || JS.isNaN (params_id req1));
      [reflexivity|].
    destruct (Zod.safeParse userSchema (body req1)) as [d1|e1] eqn:E1.
    + rewrite <- (Heq eq_refl). reflexivity.
    + destruct (Zod.safeParse userSchema (body req2)); [discriminate|reflexivity].
  - intros data.
    destruct (Zod.safeParse userSchema (body req1)) as [d1|e1] eqn:E1; simpl.
    + intros [= ->]%list_elem_of_singleton. apply (success_is_valid _ _ E1).
    + intros H. inversion H.
  - intros id data.
    destruct (negb (JS.truthy (params_id req1)) || JS.isNaN (params_id req1));
      [intros H; inversion H|].
    destruct (Zod.safeParse userSchema (body req1)) as [d1|e1] eqn:E1; simpl.
    + intros [= _ ->]%list_elem_of_singleton. apply (success_is_valid _ _ E1).
    + intros H. inversion H.
Qed.

Lemma unknown_fields_stripped_witness :
  calls (UserController.createUser
           (request None (JObj [("name", JStr "Al"); ("email", JStr "a@b.com");
                                ("id", JNum 1); ("admin", JBool true)])))
  = calls (UserController.createUser
             (request None (JObj [("role", JStr "root"); ("email", JStr "a@b.com");
                                  ("name", JStr "Al")]))).
Proof.
  exact (proj1 (unknown_fields_stripped
           (request None (JObj [("name", JStr "Al"); ("email", JStr "a@b.com");
                                ("id", JNum 1); ("admin", JBool true)]))
           (request None (JObj [("role", JStr "root"); ("email", JStr "a@b.com");
                                ("name", JStr "Al")]))
           eq_refl eq_refl)).
Defined.

(* ===================================================================== *)
(** ** The router *)
(* ===================================================================== *)

Section Router.

Lemma charOf_code c : JS.charOf (JS.code c) = c.
Proof.
  unfold JS.charOf, JS.code. rewrite N2Z.id. apply ascii_N_embedding.
Qed.

(** A string without a percent sign decodes to itself. *)
Lemma decode_plain s :
  JS.allChars (fun c => negb (JS.eqChar c "%")) s = true ->
  JS.decodeURIComponent s = JS.Decoded s.
Proof.
  unfold JS.decodeURIComponent.
  induction s as [|c r IH]; [reflexivity|].
  cbn [JS.allChars JS.tokens]. intros [Hc Hr]%andb_true_iff.
  apply negb_true_iff in Hc. rewrite Hc.
  cbn [JS.decodeTokens]. rewrite (IH Hr). cbn [JS.consChar].
  rewrite charOf_code. reflexivity.
Qed.

Lemma consChar_nonempty cp d x : JS.consChar cp d = JS.Decoded x -> x <> "".
Proof. destruct d; simpl; [intros [= <-]|..]; discriminate. Qed.

Lemma beyond_not_decoded d x : JS.beyond d <> JS.Decoded x.
Proof. destruct d; discriminate. Qed.

(** Decoding never empties a segment. *)
Lemma decode_nonempty s x :
  s <> "" -> JS.decodeURIComponent s = JS.Decoded x -> x <> "".
Proof.
  unfold JS.decodeURIComponent. destruct s as [|c r]; [contradiction|].
  intros _. cbn [JS.tokens].
  destruct (JS.eqChar c "%").
  2:{ cbn [JS.decodeTokens]. apply consChar_nonempty. }
  assert (Hesc : forall b ts, JS.decodeTokens (JS.Esc b :: ts) = JS.Decoded x -> x <> "").
  { intros b ts. cbn [JS.decodeTokens].
    repeat match goal with
           | |- context [if ?c then _ else _] => destruct c
           | |- context [match ?l with [] => _ | _ :: _ => _ end] => destruct l
           | |- context [match ?t with JS.Raw _ => _ | _ => _ end] => destruct t
           end;
      first [ discriminate
            | apply consChar_nonempty
            | intros H; exfalso; exact (beyond_not_decoded _ _ H) ]. }
  destruct r as [|h1 [|h2 r']]; try discriminate.
  destruct (JS.digitValue h1), (JS.digitValue h2); try discriminate.
  apply Hesc.
Qed.

Lemma lower_not_percent c x :
  JS.lowerChar c = x -> JS.eqChar x "%" = false -> JS.eqChar c "%" = false.
Proof.
  intros <- H. destruct (JS.eqChar c "%") eqn:E; [|reflexivity].
  apply Ascii.eqb_eq in E. subst c. discriminate H.
Qed.

(** A spelling of "search" has no escape. *)
Lemma search_decodes s :
  JS.toLowerCase s = "search" -> JS.decodeURIComponent s = JS.Decoded s.
Proof.
  intros H. apply decode_plain.
  destruct s as [|c1 [|c2 [|c3 [|c4 [|c5 [|c6 [|c7 r]]]]]]]; try discriminate H.
  cbn [JS.toLowerCase] in H. injection H as H1 H2 H3 H4 H5 H6.
  cbn [JS.allChars].
  rewrite (lower_not_percent c1 _ H1 eq_refl), (lower_not_percent c2 _ H2 eq_refl),
    (lower_not_percent c3 _ H3 eq_refl), (lower_not_percent c4 _ H4 eq_refl),
    (lower_not_percent c5 _ H5 eq_refl), (lower_not_percent c6 _ H6 eq_refl).
  reflexivity.
Qed.

(** The three patterns of the table, on the segments of a path. *)
Lemma match_users segs :
  (exists s1, segs = [s1] /\ JS.toLowerCase s1 = "users" /\
     Routes.matchPattern [Routes.Lit "users"] segs = Routes.Params []) \/
  Routes.matchPattern [Routes.Lit "users"] segs = Routes.NoMatch.
Proof.
  destruct segs as [|s1 [|s2 rest]]; cbn [Routes.matchPattern]; auto.
  - destruct (String.eqb_spec (JS.toLowerCase "users") (JS.toLowerCase s1)) as [E|_];
      [|auto].
    left. exists s1. rewrite <- E. auto.
  - destruct (String.eqb _ _); auto.
Qed.

Lemma match_users_search segs :
  (exists s1 s2, segs = [s1; s2] /\ JS.toLowerCase s1 = "users" /\
     JS.toLowerCase s2 = "search" /\
     Routes.matchPattern [Routes.Lit "users"; Routes.Lit "search"] segs
     = Routes.Params []) \/
  (Routes.matchPattern [Routes.Lit "users"; Routes.Lit "search"] segs = Routes.NoMatch /\
   forall s1 s2, segs = [s1; s2] -> JS.toLowerCase s1 = "users" ->
                 JS.toLowerCase s2 <> "search").
Proof.
  destruct segs as [|s1 [|s2 [|s3 rest]]]; cbn [Routes.matchPattern].
  - right. split; [reflexivity|]. intros ? ? [=].
  - right. split; [destruct (String.eqb _ _); reflexivity|]. intros ? ? [=].
  - destruct (String.eqb_spec (JS.toLowerCase "users") (JS.toLowerCase s1)) as [E1|N1].
    + destruct (String.eqb_spec (JS.toLowerCase "search") (JS.toLowerCase s2)) as [E2|N2].
      * left. exists s1, s2. rewrite <- E1, <- E2. auto.
      * right. split; [reflexivity|]. intros ? ? [= <- <-] _ E. apply N2.
        rewrite E. reflexivity.
    + right. split; [reflexivity|]. intros ? ? [= <- <-] E. exfalso. apply N1.
      rewrite E. reflexivity.
  - right. split; [|intros ? ? [=]].
    destruct (String.eqb _ _); [|reflexivity].
    destruct (String.eqb _ _); reflexivity.
Qed.

Lemma match_users_id segs :
  (exists s1 s2, segs = [s1; s2] /\ JS.toLowerCase s1 = "users" /\ s2 <> "" /\
     Routes.matchPattern [Routes.Lit "users"; Routes.Param "id"] segs
     = match JS.decodeURIComponent s2 with
       | JS.Decoded x => Routes.Params [("id", x)]
       | JS.Malformed => Routes.BadEscape
       | JS.Beyond => Routes.Unrepresented
       end) \/
  (Routes.matchPattern [Routes.Lit "users"; Routes.Param "id"] segs = Routes.NoMatch /\
   forall s1 s2, segs = [s1; s2] -> JS.toLowerCase s1 = "users" -> s2 = "").
Proof.
  destruct segs as [|s1 [|s2 [|s3 rest]]]; cbn [Routes.matchPattern].
  - right. split; [reflexivity|]. intros ? ? [=].
  - right. split; [destruct (String.eqb _ _); reflexivity|]. intros ? ? [=].
  - destruct (String.eqb_spec (JS.toLowerCase "users") (JS.toLowerCase s1)) as [E1|N1].
    + destruct s2 as [|c r]; cbn [JS.isEmpty].
      * right. split; [reflexivity|]. intros ? ? [= <- <-] _. reflexivity.
      * left. exists s1, (String c r). rewrite <- E1.
        split; [reflexivity|]. split; [reflexivity|]. split; [discriminate|].
        destruct (JS.decodeURIComponent (String c r)); reflexivity.
    + right. split; [reflexivity|]. intros ? ? [= <- <-] E. exfalso. apply N1.
      rewrite E. reflexivity.
  - right. split; [|intros ? ? [=]].
    destruct (String.eqb _ _); [|reflexivity].
    destruct (JS.isEmpty s2); [reflexivity|].
    destruct (JS.decodeURIComponent s2); reflexivity.
Qed.

(** The table on a path of one segment and on a path of two. *)
Lemma dispatchIn_one m s1 :
  JS.toLowerCase s1 = "users" ->
  Routes.dispatchIn Routes.userRoutes m [s1] =
  match m with
  | Routes.POST => Routes.Run Routes.createUser []
  | Routes.GET | Routes.HEAD => Routes.Run Routes.listUsers []
  | _ => Routes.NoRoute
  end.
Proof.
  intros E. unfold Routes.userRoutes.
  cbn [Routes.dispatchIn Routes.method Routes.pattern Routes.handle Routes.matchPattern].
  change (JS.toLowerCase "users") with "users". rewrite E, String.eqb_refl.
  destruct m; reflexivity.
Qed.

Lemma dispatchIn_two m s1 s2 :
  JS.toLowerCase s1 = "users" -> s2 <> "" ->
  Routes.dispatchIn Routes.userRoutes m [s1; s2] =
  if String.eqb (JS.toLowerCase s2) "search"
     && match m with Routes.GET | Routes.HEAD => true | _ => false end
  then Routes.Run Routes.searchUsers []
  else
    match JS.decodeURIComponent s2 with
    | JS.Malformed => Routes.BadRequest
    | JS.Beyond =>
        match m with
        | Routes.GET | Routes.HEAD | Routes.PUT | Routes.DELETE => Routes.Outside
        | _ => Routes.NoRoute
        end
    | JS.Decoded x =>
        match m with
        | Routes.GET | Routes.HEAD => Routes.Run Routes.getUser [("id", x)]
        | Routes.PUT => Routes.Run Routes.updateUser [("id", x)]
        | Routes.DELETE => Routes.Run Routes.deleteUser [("id", x)]
        | _ => Routes.NoRoute
        end
    end.
Proof.
  intros E Hne. unfold Routes.userRoutes.
  cbn [Routes.dispatchIn Routes.method Routes.pattern Routes.handle Routes.matchPattern].
  change (JS.toLowerCase "users") with "users".
  change (JS.toLowerCase "search") with "search".
  rewrite E, String.eqb_refl.
  destruct s2 as [|c r]; [contradiction|]. cbn [JS.isEmpty].
  rewrite (String.eqb_sym "search").
  destruct (String.eqb_spec (JS.toLowerCase (String c r)) "search") as [Es|Ns].
  - rewrite (search_decodes _ Es). destruct m; reflexivity.
  - destruct (JS.decodeURIComponent (String c r)); destruct m; reflexivity.
Qed.

Lemma dispatchIn_other m segs :
  (forall s1, segs = [s1] -> JS.toLowerCase s1 <> "users") ->
  (forall s1 s2, segs = [s1; s2] -> JS.toLowerCase s1 <> "users" \/ s2 = "") ->
  Routes.dispatchIn Routes.userRoutes m segs = Routes.NoRoute.
Proof.
  intros H1 H2. unfold Routes.userRoutes.
  cbn [Routes.dispatchIn Routes.method Routes.pattern Routes.handle].
  assert (E1 : Routes.matchPattern [Routes.Lit "users"] segs = Routes.NoMatch).
  { destruct (match_users segs) as [(s1 & -> & E & _)|E]; [|exact E].
    exfalso. exact (H1 s1 eq_refl E). }
  assert (E2 : Routes.matchPattern [Routes.Lit "users"; Routes.Lit "search"] segs
               = Routes.NoMatch).
  { destruct (match_users_search segs) as [(s1 & s2 & -> & E & Es & _)|[E _]]; [|exact E].
    exfalso. destruct (H2 s1 s2 eq_refl) as [N| ->]; [exact (N E)|discriminate Es]. }
  assert (E3 : Routes.matchPattern [Routes.Lit "users"; Routes.Param "id"] segs
               = Routes.NoMatch).
  { destruct (match_users_id segs) as [(s1 & s2 & -> & E & Hne & _)|[E _]]; [|exact E].
    exfalso. destruct (H2 s1 s2 eq_refl) as [N|N]; [exact (N E)|exact (Hne N)]. }
  rewrite E1, E2, E3. reflexivity.
Qed.

(** Every list of segments is of one of the three kinds. *)
Lemma segments_cases segs :
  (exists s1, segs = [s1] /\ JS.toLowerCase s1 = "users") \/
  (exists s1 s2, segs = [s1; s2] /\ JS.toLowerCase s1 = "users" /\ s2 <> "") \/
  ((forall s1, segs = [s1] -> JS.toLowerCase s1 <> "users") /\
   (forall s1 s2, segs = [s1; s2] -> JS.toLowerCase s1 <> "users" \/ s2 = "")).
Proof.
  destruct segs as [|s1 [|s2 [|s3 rest]]].
  - right. right. split; intros; discriminate.
  - destruct (String.eqb_spec (JS.toLowerCase s1) "users") as [E|N].
    + left. exists s1. auto.
    + right. right. split; [intros ? [= <-]; exact N|intros; discriminate].
  - destruct (String.eqb_spec (JS.toLowerCase s1) "users") as [E|N].
    + destruct s2 as [|c r].
      * right. right. split; [intros; discriminate|]. intros ? ? [= <- <-]. auto.
      * right. left. exists s1, (String c r). split; [reflexivity|].
        split; [exact E|discriminate].
    + right. right. split; [intros; discriminate|]. intros ? ? [= <- <-]. auto.
  - right. right. split; intros; discriminate.
Qed.

Ltac two_segments s1 s2 E Hne :=
  (split; [auto|]); exists s1, [s2];
  split; [reflexivity|]; split; [exact E|]; right; exists s2;
  split; [reflexivity|]; split; [exact Hne|].

(** What a dispatch that runs a handler says about the request. *)
Lemma dispatch_inversion (m : Routes.Method) (path : string)
  (h : Routes.Handle) (ps : list (string * string)) :
  Routes.dispatch m path = Routes.Run h ps ->
  (m = methodOf h \/ (m = Routes.HEAD /\ methodOf h = Routes.GET)) /\
  exists s1 rest,
    Routes.segments path = s1 :: rest /\ JS.toLowerCase s1 = "users" /\
    ((rest = [] /\ ps = [] /\ (h = Routes.createUser \/ h = Routes.listUsers)) \/
     (exists s2, rest = [s2] /\ s2 <> "" /\
        ((h = Routes.searchUsers /\ ps = [] /\ JS.toLowerCase s2 = "search") \/
         (usesId h = true /\
          (h = Routes.getUser -> JS.toLowerCase s2 <> "search") /\
          exists x, JS.decodeURIComponent s2 = JS.Decoded x /\ x <> "" /\
                    ps = [("id", x)])))).
Proof.
  unfold Routes.dispatch.
  destruct (segments_cases (Routes.segments path))
    as [(s1 & -> & E)|[(s1 & s2 & -> & E & Hne)|[H1 H2]]].
  - rewrite (dispatchIn_one m s1 E).
    destruct m; try discriminate; intros [= <- <-];
      (split; [auto|]); exists s1, []; auto 10.
  - rewrite (dispatchIn_two m s1 s2 E Hne).
    destruct (String.eqb_spec (JS.toLowerCase s2) "search") as [Es|Ns].
    + rewrite (search_decodes _ Es).
      destruct m; cbn [andb]; try discriminate; intros [= <- <-];
        two_segments s1 s2 E Hne;
        first [ left; split; [reflexivity|]; split; [reflexivity|exact Es]
              | right; split; [reflexivity|]; split; [intros [=]|];
                exists s2; split; [exact (search_decodes _ Es)|];
                split; [exact Hne|reflexivity] ].
    + cbn [andb].
      destruct (JS.decodeURIComponent s2) as [x| |] eqn:Ed;
        destruct m; try discriminate; intros [= <- <-];
        two_segments s1 s2 E Hne;
        (right; split; [reflexivity|]; split; [intros _; exact Ns|];
         exists x; split; [first [reflexivity|exact Ed]|];
         split; [exact (decode_nonempty s2 x Hne Ed)|reflexivity]).
  - rewrite (dispatchIn_other m _ H1 H2). discriminate.
Qed.

End Router.



(* ===================================================================== *)
(** ** Worked instances *)
(* ===================================================================== *)

Example number_examples :
  map JS.mathematicalValue ["3.7"; " 12 "; ""; "abc"; "0x1F"; "-0x1F"; "1e3"; ".5"; "12px"]
  = [JS.Fin false 37 (-1); JS.Fin false 12 0; JS.Fin false 0 0; JS.NaN;
     JS.Fin false 31 0; JS.NaN; JS.Fin false 1 3; JS.Fin false 5 (-1); JS.NaN].
Proof. reflexivity. Qed.

Example parseInt_examples :
  map (fun s => JS.parseInt (Some s))
      ["3.7"; "-3.7"; " 12 "; "0x1F"; "1e3"; ".5"; "Infinity"; "12px"]
  = [Some (JS.Finite 3); Some (JS.Finite (-3)); Some (JS.Finite 12);
     Some (JS.Finite 31); Some (JS.Finite 1); None; None; Some (JS.Finite 12)].
Proof. reflexivity. Qed.

(** Above 2^53 the digits are rounded to the nearest double, ties to
    the even one; past the largest double the result is infinite. *)
Example toDouble_examples :
  JS.toDouble 9007199254740992 = JS.Finite 9007199254740992 /\
  JS.toDouble 9007199254740993 = JS.Finite 9007199254740992 /\
  JS.toDouble 9007199254740995 = JS.Finite 9007199254740996 /\
  JS.toDouble (- 9007199254740993) = JS.Finite (- 9007199254740992) /\
  JS.toDouble (2 ^ 1024 - 2 ^ 970 - 1) = JS.Finite (2 ^ 1024 - 2 ^ 971) /\
  JS.toDouble (2 ^ 1024 - 2 ^ 970) = JS.Infinite false /\
  JS.toDouble (10 ^ 400) = JS.Infinite false.
Proof. repeat split; vm_compute; reflexivity. Qed.

Example decodeURIComponent_examples :
  map JS.decodeURIComponent
      ["42"; "%37"; "%20"; "%73earch"; "a%2Fb"; "%C3%A9"; "%"; "%4"; "%zz";
       "%C3"; "%C0%80"; "%E2%82%AC"; "%E2%82"; "%ED%A0%80"; "%FF"]
  = [JS.Decoded "42"; JS.Decoded "7"; JS.Decoded " "; JS.Decoded "search";
     JS.Decoded "a/b"; JS.Decoded (String (JS.charOf 233) ""); JS.Malformed;
     JS.Malformed; JS.Malformed; JS.Malformed; JS.Malformed; JS.Beyond;
     JS.Malformed; JS.Malformed; JS.Malformed].
Proof. reflexivity. Qed.

Example isEmail_examples :
  map Zod.isEmail ["a@b.com"; "A_b+c@x-y.example.ORG"; "a@b"; ".a@b.com";
                   "a..b@b.com"; "a@b@c.com"; "a.@b.com"]
  = [true; true; false; false; false; false; false].
Proof. reflexivity. Qed.

(** A valid body is created with the next identifier and the fields
    that were sent. *)
Example createUser_201 :
  (run (UserController.createUser
          (request None (JObj [("name", JStr "Al"); ("email", JStr "a@b.com")])))
       dbWithAnn).1.1
  = res 201 (Json (Prisma.VUser
      {| Prisma.id := 8; Prisma.name := "Al"; Prisma.email := "a@b.com" |})).
Proof. reflexivity. Qed.

(** After a delete the record is gone. *)
Example deleteUser_then_getUser :
  let '(r1, db1, _) :=
    run (UserController.deleteUser (request (Some "7") JUndefined)) dbWithAnn in
  r1 = res 204 Empty /\
  (run (UserController.getUser (request (Some "7") JUndefined)) db1).1.1
  = res 404 (JsonError "User not found").
Proof. split; reflexivity. Qed.

(** An update of an identifier that has no record is a failure of the
    client and is answered with the generic 500. *)
Example updateUser_missing_record :
  (run (UserController.updateUser
          (request (Some "99") (JObj [("name", JStr "Al"); ("email", JStr "a@b.com")])))
       dbWithAnn).1.1
  = res 500 (JsonError "Internal Server Error").
Proof. reflexivity. Qed.

(** On a database that compares code units the query "al" finds Alice
    through her email only; an empty query and a query that is no
    string are refused. *)
Example searchUsers_examples :
  let alice := {| Prisma.id := 2; Prisma.name := "Alice"; Prisma.email := "alice@x.org" |} in
  let db := Prisma.withUsers dbWithAnn [alice] 3 in
  (run (UserController.searchUsers
          {| params_id := None; query_query := JStr "al"; body := JUndefined |})
       db).1.1 = res 200 (Json (Prisma.VUsers [alice])) /\
  (run (UserController.searchUsers
          {| params_id := None; query_query := JStr ""; body := JUndefined |})
       db).1.1 = res 400 (JsonError "Query parameter is required") /\
  (run (UserController.searchUsers
          {| params_id := None; query_query := JArr [JStr "al"]; body := JUndefined |})
       db).1.1 = res 400 (JsonError "Query parameter is required").
Proof. repeat split; reflexivity. Qed.

(* ===================================================================== *)
(** ** Further properties of the id check *)
(* ===================================================================== *)

Section Identifiers.

Lemma trimStart_blank s : isBlank s = true -> JS.trimStart s = "".
Proof.
  unfold isBlank. induction s as [|c r IH]; simpl; [reflexivity|].
  intros [Hc Hr]%andb_true_iff. rewrite Hc. exact (IH Hr).
Qed.

Lemma trimEnd_nonempty c r :
  JS.isWhiteSpace c = false -> JS.trimEnd (String c r) <> "".
Proof. intros Hc. simpl. rewrite Hc. destruct (JS.trimEnd r); discriminate. Qed.

(** [trim] leaves nothing exactly of the strings of white space. *)
Lemma trim_empty_iff s : JS.trim s = "" <-> isBlank s = true.
Proof.
  unfold JS.trim, isBlank. split.
  - induction s as [|c r IH]; [reflexivity|].
    cbn [JS.trimStart JS.allChars].
    destruct (JS.isWhiteSpace c) eqn:Hc; [exact IH|].
    intros H. exfalso. exact (trimEnd_nonempty c r Hc H).
  - intros H. rewrite (trimStart_blank s H). reflexivity.
Qed.

Lemma unsigned_digits ds :
  allDigits ds = true -> ds <> "" ->
  JS.strUnsignedDecimalLiteral ds = JS.Fin false (JS.radixValue 10 ds) 0.
Proof.
  intros Hds Hne. unfold JS.strUnsignedDecimalLiteral.
  destruct ds as [|c ds']; [contradiction|].
  assert (Hc : JS.isDigit c = true).
  { simpl in Hds. apply andb_true_iff in Hds. tauto. }
  replace (String.eqb (String c ds') "Infinity") with false.
  2:{ symmetry. apply String.eqb_neq. intros [= E _].
      destruct (digit_facts c Hc) as (_&_&_&_&_&_&_&_&_&_&_&HI). contradiction. }
  rewrite (span_all JS.isDigit JS.isDigit (String c ds')) by auto.
  reflexivity.
Qed.

Lemma digits_no_prefix c ds' :
  JS.isDigit c = true -> allDigits ds' = true ->
  JS.nonDecimalIntegerLiteral (String c ds') = None /\
  match String c ds' with
  | String c0 (String p0 r0) =>
      JS.eqChar c0 "0" && (JS.eqChar p0 "x" || JS.eqChar p0 "X")
  | _ => false
  end = false.
Proof.
  intros Hc Hds. destruct ds' as [|p r]; [split; reflexivity|].
  simpl in Hds. apply andb_true_iff in Hds as [Hp _].
  destruct (digit_facts p Hp) as (_ & _ & _ & _ & Hx & HX & Ho & HO & Hb & HB & _).
  unfold JS.nonDecimalIntegerLiteral. rewrite Hx, HX, Ho, HO, Hb, HB.
  cbn [orb]. change (0 =? 0) with true. rewrite orb_true_r, andb_false_r.
  split; reflexivity.
Qed.

Lemma signed_noSpace neg ds :
  allDigits ds = true ->
  JS.trimStart (signedDigits neg ds) = signedDigits neg ds /\
  JS.trim (signedDigits neg ds) = signedDigits neg ds.
Proof.
  intros Hds.
  assert (Hall : JS.allChars (fun c => negb (JS.isWhiteSpace c)) (signedDigits neg ds) = true).
  { unfold signedDigits. rewrite allChars_app, (digits_noSpace ds Hds).
    destruct neg; reflexivity. }
  assert (Hs : JS.trimStart (signedDigits neg ds) = signedDigits neg ds).
  { destruct (signedDigits neg ds) as [|c r]; [reflexivity|].
    simpl in Hall. apply andb_true_iff in Hall as [Hc _].
    apply trimStart_id, negb_true_iff, Hc. }
  split; [exact Hs|]. unfold JS.trim. rewrite Hs. apply trimEnd_id, Hall.
Qed.

(** The value of a decimal integer, and [parseInt] of it. *)
Lemma number_signed neg ds :
  allDigits ds = true -> ds <> "" ->
  JS.mathematicalValue (signedDigits neg ds) = JS.Fin neg (JS.radixValue 10 ds) 0.
Proof.
  intros Hds Hne. unfold JS.mathematicalValue.
  destruct (signed_noSpace neg ds Hds) as [_ ->].
  pose proof (unsigned_digits ds Hds Hne) as Hu.
  destruct ds as [|c ds']; [contradiction|].
  assert (Hc : JS.isDigit c = true /\ allDigits ds' = true).
  { simpl in Hds. apply andb_true_iff in Hds. exact Hds. }
  destruct Hc as [Hc Hds'].
  destruct (digits_no_prefix c ds' Hc Hds') as [Hnd _].
  destruct (digit_facts c Hc) as (_ & Hplus & Hminus & _).
  destruct neg; unfold signedDigits.
  - change ("-" +:+ String c ds') with (String "-" (String c ds')).
    cbn [JS.isEmpty JS.nonDecimalIntegerLiteral JS.strDecimalLiteral].
    change (JS.eqChar "-" "0") with false.
    change (JS.eqChar "-" "+") with false.
    change (JS.eqChar "-" "-") with true.
    cbn [negb orb]. cbv iota. rewrite Hu. reflexivity.
  - change ("" +:+ String c ds') with (String c ds').
    cbn [JS.isEmpty]. rewrite Hnd.
    cbn [JS.strDecimalLiteral]. rewrite Hplus, Hminus. exact Hu.
Qed.

Lemma parseInt_signed neg ds :
  allDigits ds = true -> ds <> "" ->
  JS.parseInt (Some (signedDigits neg ds))
  = Some (JS.toDouble ((if neg then -1 else 1) * JS.radixValue 10 ds)).
Proof.
  intros Hds Hne. unfold JS.parseInt.
  destruct (signed_noSpace neg ds Hds) as [-> _].
  assert (Hspan : JS.span (JS.isRadixDigit 10) ds = (ds, "")).
  { apply (span_all JS.isDigit); [exact digit_radix10|exact Hds]. }
  destruct ds as [|c ds']; [contradiction|].
  assert (Hc : JS.isDigit c = true /\ allDigits ds' = true).
  { simpl in Hds. apply andb_true_iff in Hds. exact Hds. }
  destruct Hc as [Hc Hds'].
  destruct (digits_no_prefix c ds' Hc Hds') as [_ Hpre].
  destruct (digit_facts c Hc) as (_ & Hplus & Hminus & _).
  assert (Hrest : (let '(R, S2) :=
            match String c ds' with
            | String c0 (String p0 r0) =>
                if JS.eqChar c0 "0" && (JS.eqChar p0 "x" || JS.eqChar p0 "X")
                then (16, r0) else (10, String c ds')
            | _ => (10, String c ds')
            end in
          let '(Zs, _) := JS.span (JS.isRadixDigit R) S2 in
          if JS.isEmpty Zs then None
          else Some (JS.toDouble ((if neg then -1 else 1) * JS.radixValue R Zs)))
          = Some (JS.toDouble ((if neg then -1 else 1) * JS.radixValue 10 (String c ds')))).
  { destruct ds' as [|p r]; [rewrite Hspan; reflexivity|].
    rewrite Hpre, Hspan. reflexivity. }
  destruct neg; unfold signedDigits.
  - change ("-" +:+ String c ds') with (String "-" (String c ds')).
    change (JS.eqChar "-" "-") with true. cbv iota. exact Hrest.
  - change ("" +:+ String c ds') with (String c ds').
    cbv beta iota. rewrite Hminus, Hplus. exact Hrest.
Qed.

End Identifiers.

(** X1: an id made of decimal digits, with or without a minus sign,
    passes the check, and each of the three handlers hands the double
    nearest to its value to the client: the value itself when it is
    below 2^53, a rounded neighbour above. *)
Theorem integer_id_passed_on (req : Request) (neg : bool) (ds : string) :
  params_id req = Some (signedDigits neg ds) ->
  allDigits ds = true -> ds <> "" ->
  let n := (if neg then -1 else 1) * JS.radixValue 10 ds in
  idAccepted (params_id req) /\
  calls (UserController.getUser req) = [Prisma.findUnique (Some (JS.toDouble n))] /\
  calls (UserController.deleteUser req) = [Prisma.delete (Some (JS.toDouble n))] /\
  (forall data,
     Zod.safeParse userSchema (body req) = Zod.Success data ->
     calls (UserController.updateUser req)
     = [Prisma.update (Some (JS.toDouble n)) data]) /\
  (JS.radixValue 10 ds < 2 ^ 53 -> JS.toDouble n = JS.Finite n).
Proof.
  intros Hid Hds Hne n.
  assert (Hacc : idAccepted (params_id req)).
  { rewrite Hid. exists (signedDigits neg ds). split; [reflexivity|]. split.
    - unfold signedDigits. destruct neg; [discriminate|].
      destruct ds; [contradiction|discriminate].
    - rewrite number_signed by assumption. discriminate. }
  split; [exact Hacc|].
  apply idRejected_spec in Hacc.
  unfold UserController.getUser, UserController.deleteUser,
    UserController.updateUser.
  fold (idRejected (params_id req)). rewrite Hacc, Hid.
  rewrite parseInt_signed by assumption.
  split; [reflexivity|split; [reflexivity|split]].
  - intros data ->. reflexivity.
  - intros Hsmall. apply toDouble_exact.
    pose proof (radixValue_bound ds Hds) as Hb. subst n. destruct neg; lia.
Qed.

Lemma integer_id_passed_on_witness :
  calls (UserController.deleteUser (request (Some "-042") JUndefined))
  = [Prisma.delete (Some (JS.Finite (-42)))] /\
  calls (UserController.getUser (request (Some "9007199254740993") JUndefined))
  = [Prisma.findUnique (Some (JS.Finite 9007199254740992))].
Proof.
  split.
  - pose proof (integer_id_passed_on (request (Some "-042") JUndefined) true "042"
                  eq_refl eq_refl ltac:(discriminate)) as (_ & _ & Hdel & _ & Hsmall).
    rewrite Hdel, Hsmall; [reflexivity|vm_compute; reflexivity].
  - pose proof (integer_id_passed_on (request (Some "9007199254740993") JUndefined)
                  false "9007199254740993"
                  eq_refl eq_refl ltac:(discriminate)) as (_ & Hget & _).
    rewrite Hget. vm_compute. reflexivity.
Defined.

(** X2: an id of white space only is not empty and converts to the
    number 0, so it passes the check; [parseInt] finds no digit in it,
    and the client is called with NaN. *)
Theorem blank_id_reaches_client_as_NaN (req : Request) (s : string) :
  params_id req = Some s -> s <> "" -> isBlank s = true ->
  idAccepted (params_id req) /\
  calls (UserController.getUser req) = [Prisma.findUnique None] /\
  calls (UserController.deleteUser req) = [Prisma.delete None] /\
  (forall data,
     Zod.safeParse userSchema (body req) = Zod.Success data ->
     calls (UserController.updateUser req) = [Prisma.update None data]).
Proof.
  intros Hid Hne Hblank.
  assert (Hnum : JS.mathematicalValue s = JS.Fin false 0 0).
  { unfold JS.mathematicalValue.
    rewrite (proj2 (trim_empty_iff s) Hblank). reflexivity. }
  assert (Hacc : idAccepted (params_id req)).
  { rewrite Hid. exists s. split; [reflexivity|]. split; [exact Hne|].
    rewrite Hnum. discriminate. }
  split; [exact Hacc|].
  apply idRejected_spec in Hacc.
  unfold UserController.getUser, UserController.deleteUser,
    UserController.updateUser.
  fold (idRejected (params_id req)). rewrite Hacc, Hid.
  assert (Hp : JS.parseInt (Some s) = None).
  { unfold JS.parseInt. rewrite (trimStart_blank s Hblank). reflexivity. }
  rewrite Hp. split; [reflexivity|split; [reflexivity|]].
  intros data ->. reflexivity.
Qed.

Lemma blank_id_reaches_client_as_NaN_witness :
  idAccepted (Some " ") /\
  calls (UserController.getUser (request (Some " ") JUndefined))
  = [Prisma.findUnique None].
Proof.
  destruct (blank_id_reaches_client_as_NaN (request (Some " ") JUndefined) " "
              eq_refl ltac:(discriminate) eq_refl) as (Hacc & Hget & _).
  split; [exact Hacc|exact Hget].
Defined.

(** X3: searchUsers calls the client exactly when the query is a string
    with a character that is no white space; the filter then carries
    the query as it was sent, neither trimmed nor lowercased, once for
    the name and once for the email.  Every other query is answered 400
    and the client is not called. *)
Theorem searchUsers_calls_iff (req : Request) :
  (forall q,
     query_query req = JStr q -> isBlank q = false ->
     calls (UserController.searchUsers req)
     = [Prisma.findMany (Some
          {| Prisma.OR :=
               [ {| Prisma.on_name := Some (UserController.searchFilter q);
                    Prisma.on_email := None |};
                 {| Prisma.on_name := None;
                    Prisma.on_email := Some (UserController.searchFilter q) |} ] |})]
     /\ Prisma.contains (UserController.searchFilter q) = Some q) /\
  ((forall q, query_query req = JStr q -> isBlank q = true) ->
   forall db,
     run (UserController.searchUsers req) db
     = (res 400 (JsonError "Query parameter is required"), db, [])).
Proof.
  split.
  - intros q Hq Hblank. unfold UserController.searchUsers. rewrite Hq.
    assert (Htrim : String.eqb (JS.trim q) "" = false).
    { apply String.eqb_neq. intros E. apply trim_empty_iff in E. congruence. }
    assert (Hne : Value.truthy (JStr q) = true).
    { destruct q; [discriminate Hblank|reflexivity]. }
    rewrite Htrim, Hne. split; reflexivity.
  - intros Hall db. apply searchUsers_refuses.
    destruct (query_query req) as [| | | |q| |] eqn:E; try exact I.
    apply trim_empty_iff, Hall. reflexivity.
Qed.

Lemma searchUsers_calls_iff_witness :
  Prisma.contains (UserController.searchFilter " Al ") = Some " Al " /\
  run (UserController.searchUsers
         {| params_id := None; query_query := JStr "   "; body := JUndefined |})
      dbWithAnn
  = (res 400 (JsonError "Query parameter is required"), dbWithAnn, []).
Proof.
  split.
  - exact (proj2 (proj1 (searchUsers_calls_iff
             {| params_id := None; query_query := JStr " Al "; body := JUndefined |})
             " Al " eq_refl eq_refl)).
  - apply (proj2 (searchUsers_calls_iff
             {| params_id := None; query_query := JStr "   "; body := JUndefined |})).
    intros q [= <-]. reflexivity.
Defined.

(* ===================================================================== *)
(** ** What the handlers answer *)
(* ===================================================================== *)

Section Answers.

Lemma orElse_nonempty a : orElse a "Internal Server Error" <> "".
Proof. destruct a as [[|c r]|]; discriminate. Qed.

(** Validation succeeds exactly on the bodies whose name and email meet
    the constraints. *)
Lemma isSuccess_valid b :
  isSuccess (Zod.safeParse userSchema b)
  = nameValid (fieldOf b "name") && emailValid (fieldOf b "email").
Proof.
  destruct b as [| | | | |items|props]; try reflexivity.
  rewrite safeParse_userSchema. simpl.
  destruct (Value.get props "name") as [| | | |n| |];
    destruct (Value.get props "email") as [| | | |e| |]; simpl;
    try destruct (String.length n <? 2)%nat;
    try destruct (Zod.isEmail e); reflexivity.
Qed.

End Answers.

(** X5: a handler answers 500 exactly when it called the client and the
    call failed; the error body of a 500 is never empty. *)
Theorem status_500_iff_call_failed (hd : Routes.Handle) (req : Request)
  (o : Prisma.Outcome) :
  let r := respond (Routes.handler hd req) o in
  (status r = 500 <->
   (exists call k, Routes.handler hd req = Await call k) /\
   (exists e, o = Prisma.Rejected e)) /\
  (status r = 500 -> exists msg, payload r = JsonError msg /\ msg <> "").
Proof.
  cbv zeta.
  assert (Hgen : forall c k,
            (forall v, status (k (Prisma.Resolved v)) <> 500) ->
            (forall e, status (k (Prisma.Rejected e)) = 500 /\
                       exists msg, payload (k (Prisma.Rejected e)) = JsonError msg
                                   /\ msg <> "") ->
            (status (respond (Await c k) o) = 500 <->
             (exists call k', Await c k = Await call k') /\
             (exists e, o = Prisma.Rejected e)) /\
            (status (respond (Await c k) o) = 500 ->
             exists msg, payload (respond (Await c k) o) = JsonError msg /\ msg <> "")).
  { intros c k Hres Hrej. simpl. destruct o as [v|e].
    - split; [split|]; intros H.
      + exfalso. exact (Hres v H).
      + destruct H as [_ [e [=]]].
      + exfalso. exact (Hres v H).
    - destruct (Hrej e) as [Hs Hm]. split; [split|]; intros H.
      + split; [exists c, k; reflexivity|exists e; reflexivity].
      + exact Hs.
      + exact Hm. }
  assert (Hdone : forall st b, st <> 500 ->
            (status (respond (Done (res st b)) o) = 500 <->
             (exists call k', Done (res st b) = Await call k') /\
             (exists e, o = Prisma.Rejected e)) /\
            (status (respond (Done (res st b)) o) = 500 ->
             exists msg, payload (respond (Done (res st b)) o) = JsonError msg
                         /\ msg <> "")).
  { intros st b Hst. simpl. split; [split|]; intros H.
    - contradiction.
    - destruct H as [(call & k' & [=]) _].
    - contradiction. }
  destruct hd; cbn [Routes.handler];
    unfold UserController.createUser, UserController.listUsers,
      UserController.searchUsers, UserController.getUser,
      UserController.updateUser, UserController.deleteUser;
    repeat match goal with
           | |- context [match ?x with _ => _ end] =>
               lazymatch x with
               | Zod.safeParse _ _ => destruct x
               | query_query _ => destruct x
               | orb _ _ => destruct x
               end
           end;
    first
      [ apply Hdone; discriminate
      | apply Hgen;
        [ intros v; simpl; try destruct (negb (Prisma.truthy v)); discriminate
        | intros e; simpl; split; [reflexivity|];
          eexists; split; [reflexivity|];
          first [ apply orElse_nonempty | discriminate ] ] ].
Qed.

Lemma status_500_iff_call_failed_witness :
  exists msg,
    payload (respond (Routes.handler Routes.createUser
                        (request None (JObj [("name", JStr "Al");
                                             ("email", JStr "a@b.com")])))
                     (Prisma.Rejected {| Prisma.message := Some "";
                                         Prisma.meta_cause := None |}))
    = JsonError msg /\ msg <> "".
Proof.
  exact (proj2 (status_500_iff_call_failed Routes.createUser
           (request None (JObj [("name", JStr "Al"); ("email", JStr "a@b.com")]))
           (Prisma.Rejected {| Prisma.message := Some ""; Prisma.meta_cause := None |}))
         eq_refl).
Defined.

(** X6: the status of an answer is one of 200, 201, 204, 400, 404 and
    500, and it tells what happened: 201 comes from createUser only,
    204 from deleteUser only and 404 from getUser only; 200, 201 and
    204 are given only after a call that succeeded, 200 and 201 with
    what the call returned and 204 with no body; 400 is given only
    before any call. *)
Theorem status_tells_outcome (hd : Routes.Handle) (req : Request)
  (o : Prisma.Outcome) :
  let r := respond (Routes.handler hd req) o in
  status r ∈ [200; 201; 204; 400; 404; 500] /\
  (status r = 201 ->
   hd = Routes.createUser /\ exists v, o = Prisma.Resolved v /\ payload r = Json v) /\
  (status r = 204 ->
   hd = Routes.deleteUser /\ (exists v, o = Prisma.Resolved v) /\ payload r = Empty) /\
  (status r = 404 ->
   hd = Routes.getUser /\ o = Prisma.Resolved Prisma.VNull
   /\ payload r = JsonError "User not found") /\
  (status r = 200 ->
   hd <> Routes.createUser /\ hd <> Routes.deleteUser /\
   exists v, o = Prisma.Resolved v /\ payload r = Json v) /\
  (status r = 400 -> calls (Routes.handler hd req) = []).
Proof.
  cbv zeta.
  destruct hd; simpl;
    unfold UserController.createUser, UserController.listUsers,
      UserController.searchUsers, UserController.getUser,
      UserController.updateUser, UserController.deleteUser;
    repeat match goal with
           | |- context [match ?x with _ => _ end] =>
               lazymatch x with
               | Zod.safeParse _ _ => destruct x
               | query_query _ => destruct x
               | orb _ _ => destruct x
               end
           end;
    simpl; try destruct o as [[|u|us]|e]; simpl;
    (split; [set_solver|]);
    repeat split; try discriminate; try reflexivity;
    try (eexists; split; reflexivity);
    try (eexists; reflexivity).
Qed.

Lemma status_tells_outcome_witness :
  Routes.getUser = Routes.getUser /\
  Prisma.Resolved Prisma.VNull = Prisma.Resolved Prisma.VNull /\
  payload (respond (Routes.handler Routes.getUser (request (Some "7") JUndefined))
                   (Prisma.Resolved Prisma.VNull))
  = JsonError "User not found".
Proof.
  exact (proj1 (proj2 (proj2 (proj2
           (status_tells_outcome Routes.getUser (request (Some "7") JUndefined)
              (Prisma.Resolved Prisma.VNull))))) eq_refl).
Defined.

(** X7: createUser calls the client exactly when the name of the body
    is a string of at least 2 characters and its email is a valid
    address; the data of the call are these two fields, and what the
    call returns is answered with 201.  Any other body is answered 400
    with an errors object. *)
Theorem createUser_calls_iff_valid (req : Request) :
  (nameValid (fieldOf (body req) "name") = true ->
   emailValid (fieldOf (body req) "email") = true ->
   exists k,
     UserController.createUser req
     = Await (Prisma.create [("name", fieldOf (body req) "name");
                             ("email", fieldOf (body req) "email")]) k /\
     forall v, k (Prisma.Resolved v) = res 201 (Json v)) /\
  (nameValid (fieldOf (body req) "name") = false \/
   emailValid (fieldOf (body req) "email") = false ->
   exists errors,
     UserController.createUser req = Done (res 400 (JsonErrors errors))).
Proof.
  pose proof (isSuccess_valid (body req)) as Hv.
  unfold UserController.createUser.
  destruct (Zod.safeParse userSchema (body req)) as [data|error] eqn:E; simpl in Hv.
  - destruct (success_is_valid _ _ E) as (-> & Hn & He). split.
    + intros _ _. eexists. split; [reflexivity|]. reflexivity.
    + intros [H|H]; congruence.
  - split.
    + intros Hn He. rewrite Hn, He in Hv. discriminate.
    + intros _. eexists. reflexivity.
Qed.

Lemma createUser_calls_iff_valid_witness :
  exists errors,
    UserController.createUser
      (request None (JObj [("name", JStr "Al"); ("email", JStr "al at b.com")]))
    = Done (res 400 (JsonErrors errors)).
Proof.
  exact (proj2 (createUser_calls_iff_valid
           (request None (JObj [("name", JStr "Al"); ("email", JStr "al at b.com")])))
         (or_intror eq_refl)).
Defined.

(** X8: updateUser checks the id first and the body second.  With an id
    that passes, it calls the client exactly when name and email are
    valid, with these two fields as data, answers what the call returns
    with 200, and answers any failure of the call, a missing record
    included, with the same 500. *)
Theorem updateUser_calls_iff_valid (req : Request) :
  idAccepted (params_id req) ->
  (nameValid (fieldOf (body req) "name") = true ->
   emailValid (fieldOf (body req) "email") = true ->
   exists k,
     UserController.updateUser req
     = Await (Prisma.update (JS.parseInt (params_id req))
                [("name", fieldOf (body req) "name");
                 ("email", fieldOf (body req) "email")]) k /\
     (forall v, k (Prisma.Resolved v) = res 200 (Json v)) /\
     (forall e, k (Prisma.Rejected e) = res 500 (JsonError "Internal Server Error"))) /\
  (nameValid (fieldOf (body req) "name") = false \/
   emailValid (fieldOf (body req) "email") = false ->
   exists errors,
     UserController.updateUser req = Done (res 400 (JsonErrors errors))).
Proof.
  intros Hok. apply idRejected_spec in Hok.
  pose proof (isSuccess_valid (body req)) as Hv.
  unfold UserController.updateUser. fold (idRejected (params_id req)).
  rewrite Hok.
  destruct (Zod.safeParse userSchema (body req)) as [data|error] eqn:E; simpl in Hv.
  - destruct (success_is_valid _ _ E) as (-> & Hn & He). split.
    + intros _ _. eexists. split; [reflexivity|]. split; reflexivity.
    + intros [H|H]; congruence.
  - split.
    + intros Hn He. rewrite Hn, He in Hv. discriminate.
    + intros _. eexists. reflexivity.
Qed.

Lemma updateUser_calls_iff_valid_witness :
  idAccepted (Some "7") /\
  (run (UserController.updateUser
          (request (Some "7") (JObj [("name", JStr "Anna"); ("email", JStr "ann@b.com");
                                     ("id", JNum 1)])))
       dbWithAnn).1.1
  = res 200 (Json (Prisma.VUser
      {| Prisma.id := 7; Prisma.name := "Anna"; Prisma.email := "ann@b.com" |})).
Proof.
  assert (Hacc : idAccepted (Some "7")).
  { exists "7". split; [reflexivity|]. split; [discriminate|].
    vm_compute. discriminate. }
  split; [exact Hacc|].
  destruct (proj1 (updateUser_calls_iff_valid
              (request (Some "7") (JObj [("name", JStr "Anna"); ("email", JStr "ann@b.com");
                                         ("id", JNum 1)])) Hacc) eq_refl eq_refl)
    as (k & Hk & Hres & _).
  rewrite Hk. unfold run. simpl. apply Hres.
Defined.

(** X9: what validation lets through passes validation again
    unchanged. *)
Theorem validated_data_revalidates (input : JsValue) (data : JsObject) :
  Zod.safeParse userSchema input = Zod.Success data ->
  Zod.safeParse userSchema (JObj data) = Zod.Success data.
Proof.
  intros H. destruct (success_is_valid _ _ H) as (-> & Hn & He).
  rewrite safeParse_userSchema.
  change (Value.get [("name", fieldOf input "name"); ("email", fieldOf input "email")] "name")
    with (fieldOf input "name").
  change (Value.get [("name", fieldOf input "name"); ("email", fieldOf input "email")] "email")
    with (fieldOf input "email").
  destruct (fieldOf input "name") as [| | | |n| |]; try discriminate Hn.
  destruct (fieldOf input "email") as [| | | |e| |]; try discriminate He.
  simpl in *. apply negb_true_iff in Hn. rewrite Hn, He. reflexivity.
Qed.

Lemma validated_data_revalidates_witness :
  Zod.safeParse userSchema (JObj [("name", JStr "Al"); ("email", JStr "a@b.com")])
  = Zod.Success [("name", JStr "Al"); ("email", JStr "a@b.com")].
Proof.
  exact (validated_data_revalidates
           (JObj [("admin", JBool true); ("email", JStr "a@b.com"); ("name", JStr "Al")])
           _ eq_refl).
Defined.

(** X10: a failure of the schema has one or two issues, and never two
    at the same field: each entry of the formatted errors is a single
    message, not a joined list. *)
Theorem one_issue_per_field (input : JsValue) (error : Zod.ZodError) :
  Zod.safeParse userSchema input = Zod.Failure error ->
  (1 <= length error <= 2)%nat /\
  forall field, (length (fieldMessages field error) <= 1)%nat.
Proof.
  destruct input as [| | | | |items|props];
    try (intros [= <-]; split; [simpl; lia|];
         intros field; unfold fieldMessages; simpl; lia).
  rewrite safeParse_userSchema.
  destruct (Value.get props "name") as [| | | |n| |];
    destruct (Value.get props "email") as [| | | |e| |]; simpl;
    try destruct (String.length n <? 2)%nat;
    try destruct (Zod.isEmail e);
    try discriminate; intros [= <-];
    (split; [simpl; lia|]);
    intros field; unfold fieldMessages; simpl;
    repeat case_bool_decide; simpl; try lia; congruence.
Qed.

Lemma one_issue_per_field_witness :
  (length (fieldMessages "name"
     [ {| Zod.code := Zod.invalid_type; Zod.path := ["name"];
          Zod.message := "Required" |};
       {| Zod.code := Zod.invalid_type; Zod.path := ["email"];
          Zod.message := "Required" |} ]) <= 1)%nat.
Proof.
  exact (proj2 (one_issue_per_field (JObj []) _ eq_refl) "name").
Defined.

(** X11: a body that is no object (missing, null, a number, a string,
    an array) is answered 400 with an empty errors object by createUser,
    and by updateUser when the id passes. *)
Theorem non_object_body_empty_errors (req : Request) :
  (forall props, body req <> JObj props) ->
  UserController.createUser req = Done (res 400 (JsonErrors ∅)) /\
  (idAccepted (params_id req) ->
   UserController.updateUser req = Done (res 400 (JsonErrors ∅))).
Proof.
  intros Hno.
  assert (Hfail : exists i, Zod.path i = [] /\
                    Zod.safeParse userSchema (body req) = Zod.Failure [i]).
  { destruct (body req) as [| | | | |items|props];
      try (eexists; split; [|reflexivity]; reflexivity).
    exfalso. exact (Hno props eq_refl). }
  destruct Hfail as (i & Hp & Hfail).
  assert (Hempty : formatZodError [i] = ∅).
  { apply map_eq. intros field. rewrite formatZodError_lookup, lookup_empty.
    unfold fieldMessages. simpl. rewrite Hp.
    rewrite bool_decide_eq_false_2 by discriminate.
    destruct (String.eqb field "_errors"); reflexivity. }
  unfold UserController.createUser, UserController.updateUser.
  rewrite Hfail, Hempty. split; [reflexivity|].
  intros Hok. apply idRejected_spec in Hok.
  fold (idRejected (params_id req)). rewrite Hok. reflexivity.
Qed.

Lemma non_object_body_empty_errors_witness :
  UserController.createUser (request None (JArr [JStr "Al"; JStr "a@b.com"]))
  = Done (res 400 (JsonErrors ∅)).
Proof.
  apply (non_object_body_empty_errors
           (request None (JArr [JStr "Al"; JStr "a@b.com"]))).
  intros props. discriminate.
Defined.

(* ===================================================================== *)
(** ** The order of the formatted properties *)
(* ===================================================================== *)

Section PropertyOrder.

Lemma property_elem (f : Zod.ZodFormattedError) k v :
  NoDup (map fst f) -> (property f k = Some v <-> (k, v) ∈ f).
Proof.
  induction f as [|[k' v'] rest IH]; simpl; intros Hnd.
  - split; [discriminate|]. intros H. inversion H.
  - apply NoDup_cons in Hnd as [Hk Hrest].
    destruct (String.eqb_spec k' k) as [->|Hne].
    + split.
      * intros [= ->]. left.
      * intros [[= ->]|Hin]%elem_of_cons; [reflexivity|].
        exfalso. apply Hk. apply (list_elem_of_fmap_2 fst _ (k, v)). exact Hin.
    + rewrite (IH Hrest). split.
      * intros H. right. exact H.
      * intros [[= -> ->]|Hin]%elem_of_cons; [contradiction|exact Hin].
Qed.

Lemma property_permutation (f f' : Zod.ZodFormattedError) k :
  NoDup (map fst f) -> f ≡ₚ f' -> property f k = property f' k.
Proof.
  intros Hnd Hp.
  assert (Hnd' : NoDup (map fst f')).
  { rewrite <- (Permutation_map fst Hp). exact Hnd. }
  destruct (property f k) as [v|] eqn:E.
  - symmetry. apply (property_elem f' k v Hnd').
    rewrite <- Hp. apply (property_elem f k v Hnd). exact E.
  - destruct (property f' k) as [v'|] eqn:E'; [|reflexivity].
    apply (property_elem f' k v' Hnd') in E'. rewrite <- Hp in E'.
    apply (property_elem f k v' Hnd) in E'. congruence.
Qed.

End PropertyOrder.

(** X12: the result of the formatter does not depend on the order in
    which the loop meets the properties of the formatted error. *)
Theorem formatFields_order_irrelevant (f f' : Zod.ZodFormattedError) :
  NoDup (map fst f) -> f ≡ₚ f' -> formatFields f = formatFields f'.
Proof.
  intros Hnd Hp. apply map_eq. intros field.
  assert (Hnd' : NoDup (map fst f')).
  { rewrite <- (Permutation_map fst Hp). exact Hnd. }
  rewrite !formatFields_lookup by assumption.
  rewrite (property_permutation f f' field Hnd Hp). reflexivity.
Qed.

Lemma formatFields_order_irrelevant_witness :
  formatFields [("name", Zod.FieldNode ["Required"]); ("_errors", Zod.ErrorList []);
                ("email", Zod.FieldNode ["Email must be valid"])]
  = formatFields [("_errors", Zod.ErrorList []);
                  ("email", Zod.FieldNode ["Email must be valid"]);
                  ("name", Zod.FieldNode ["Required"])].
Proof.
  apply formatFields_order_irrelevant.
  - apply (bool_decide_unpack _). vm_compute. exact I.
  - exact (Permutation_cons_append
             [("_errors", Zod.ErrorList []);
              ("email", Zod.FieldNode ["Email must be valid"])]
             ("name", Zod.FieldNode ["Required"])).
Defined.

(* ===================================================================== *)
(** ** Requests through the router *)
(* ===================================================================== *)

(** X13: a request runs a handler only when its path is /users or
    /users followed by one more, non-empty segment.  The handler that
    runs determines the method of the request, up to HEAD, which runs
    the handlers of GET; a handler that reads an id gets the second
    segment, percent-decoded and still not empty, as its id, and the
    other handlers get no parameter. *)
Theorem dispatch_shape (m : Routes.Method) (path : string)
  (h : Routes.Handle) (ps : list (string * string)) :
  Routes.dispatch m path = Routes.Run h ps ->
  (m = methodOf h \/ (m = Routes.HEAD /\ methodOf h = Routes.GET)) /\
  exists s1 rest,
    Routes.segments path = s1 :: rest /\ JS.toLowerCase s1 = "users" /\
    ((rest = [] /\ ps = [] /\ (h = Routes.createUser \/ h = Routes.listUsers)) \/
     (exists s2, rest = [s2] /\ s2 <> "" /\
        ((h = Routes.searchUsers /\ ps = [] /\ JS.toLowerCase s2 = "search") \/
         (usesId h = true /\
          exists x, JS.decodeURIComponent s2 = JS.Decoded x /\ x <> "" /\
                    ps = [("id", x)])))).
Proof.
  intros H.
  destruct (dispatch_inversion _ _ _ _ H) as (Hm & s1 & rest & Hsegs & E & Hshape).
  split; [exact Hm|]. exists s1, rest. split; [exact Hsegs|]. split; [exact E|].
  destruct Hshape as [Hone|(s2 & Hrest & Hne & Hcase)]; [left; exact Hone|].
  right. exists s2. split; [exact Hrest|]. split; [exact Hne|].
  destruct Hcase as [Hsearch|(Hid & _ & Hx)]; [left; exact Hsearch|].
  right. split; [exact Hid|exact Hx].
Qed.

Lemma dispatch_shape_witness :
  (Routes.HEAD = methodOf Routes.getUser
   \/ (Routes.HEAD = Routes.HEAD /\ methodOf Routes.getUser = Routes.GET)) /\
  Routes.dispatch Routes.PUT "/Users/%37/" = Routes.Run Routes.updateUser [("id", "7")] /\
  Routes.dispatch Routes.POST "/users/7" = Routes.NoRoute /\
  Routes.dispatch Routes.GET "/users/7/posts" = Routes.NoRoute.
Proof.
  split; [|repeat split; reflexivity].
  exact (proj1 (dispatch_shape Routes.HEAD "/users/%37" Routes.getUser
                  [("id", "7")] eq_refl)).
Defined.

(** X14: a GET request never makes the client create, update or delete:
    whatever its path, query and body, the handler it reaches only
    calls findUnique or findMany. *)
Theorem get_requests_only_read (path : string) (query body : JsValue)
  (hd : Handler) (c : Prisma.Call) :
  serve Routes.GET path query body = Some hd ->
  c ∈ calls hd -> readsOnly c = true.
Proof.
  unfold serve.
  destruct (Routes.dispatch Routes.GET path) as [h ps| | |] eqn:E; try discriminate.
  destruct (dispatch_inversion _ _ _ _ E) as [Hm _].
  intros [= <-].
  assert (Hget : methodOf h = Routes.GET).
  { destruct Hm as [Hm|[Hm _]]; [symmetry; exact Hm|discriminate Hm]. }
  destruct h; try discriminate Hget; cbn [Routes.handler];
    unfold UserController.listUsers, UserController.searchUsers,
      UserController.getUser; cbn [query_query params_id].
  - intros ->%list_elem_of_singleton. reflexivity.
  - destruct query as [| | | |q| |]; try (intros H; solve [inversion H]).
    destruct (negb (Value.truthy (JStr q)) || String.eqb (JS.trim q) "");
      [intros H; inversion H|].
    intros ->%list_elem_of_singleton. reflexivity.
  - destruct (negb (JS.truthy (param ps "id")) || JS.isNaN (param ps "id"));
      [intros H; inversion H|].
    intros ->%list_elem_of_singleton. reflexivity.
Qed.

Lemma get_requests_only_read_witness :
  readsOnly (Prisma.findUnique (Some (JS.Finite 7))) = true.
Proof.
  exact (get_requests_only_read "/users/7" JUndefined
           (JObj [("name", JStr "Al"); ("email", JStr "a@b.com")])
           _ (Prisma.findUnique (Some (JS.Finite 7))) eq_refl ltac:(left)).
Defined.

(** X15: the id that the router hands to getUser, updateUser or
    deleteUser is the segment after /users, percent-decoded, and is
    never empty or missing; hence a routed request is answered "Invalid
    user ID" exactly when that decoded segment does not convert to a
    number. *)
Theorem routed_id_rejected_iff_NaN (m : Routes.Method) (path : string)
  (query b : JsValue) (h : Routes.Handle) (ps : list (string * string)) :
  Routes.dispatch m path = Routes.Run h ps ->
  usesId h = true ->
  exists s1 s2 x,
    Routes.segments path = [s1; s2] /\
    JS.decodeURIComponent s2 = JS.Decoded x /\
    param ps "id" = Some x /\ x <> "" /\
    (Routes.handler h {| params_id := param ps "id"; query_query := query;
                         body := b |}
     = Done (res 400 (JsonError "Invalid user ID"))
     <-> JS.mathematicalValue x = JS.NaN).
Proof.
  intros E Hid.
  destruct (dispatch_inversion _ _ _ _ E) as (_ & s1 & rest & Hsegs & _ & Hshape).
  destruct Hshape as [(_ & _ & [-> | ->])|(s2 & -> & _ & Hcase)];
    try discriminate Hid.
  destruct Hcase as [(-> & _)|(_ & _ & x & Hd & Hne & ->)]; [discriminate Hid|].
  exists s1, s2, x. change (param [("id", x)] "id") with (Some x).
  split; [exact Hsegs|]. split; [exact Hd|]. split; [reflexivity|].
  split; [exact Hne|].
  assert (Hcheck : negb (JS.truthy (Some x)) || JS.isNaN (Some x)
                   = match JS.mathematicalValue x with JS.NaN => true | _ => false end).
  { destruct x; [contradiction|reflexivity]. }
  destruct h; try discriminate Hid; cbn [Routes.handler];
    unfold UserController.getUser, UserController.updateUser,
      UserController.deleteUser; cbn [params_id body];
    rewrite Hcheck;
    destruct (JS.mathematicalValue x); try destruct (Zod.safeParse userSchema b);
    split; intros H; try reflexivity; discriminate H.
Qed.

Lemma routed_id_rejected_iff_NaN_witness :
  Routes.handler Routes.deleteUser
    {| params_id := Some "search"; query_query := JUndefined; body := JUndefined |}
  = Done (res 400 (JsonError "Invalid user ID")) /\
  Routes.dispatch Routes.GET "/users/%20" = Routes.Run Routes.getUser [("id", " ")] /\
  Routes.handler Routes.getUser
    {| params_id := Some " "; query_query := JUndefined; body := JUndefined |}
  <> Done (res 400 (JsonError "Invalid user ID")).
Proof.
  split; [|split; [reflexivity|]].
  - destruct (routed_id_rejected_iff_NaN Routes.DELETE "/users/search" JUndefined
                JUndefined Routes.deleteUser [("id", "search")] eq_refl eq_refl)
      as (s1 & s2 & x & _ & _ & Hx & _ & Hiff).
    injection Hx as <-. apply Hiff. reflexivity.
  - destruct (routed_id_rejected_iff_NaN Routes.GET "/users/%20" JUndefined
                JUndefined Routes.getUser [("id", " ")] eq_refl eq_refl)
      as (s1 & s2 & x & _ & _ & Hx & _ & Hiff).
    injection Hx as <-. intros H. apply Hiff in H. discriminate H.
Defined.

(** X16: in the router, a malformed escape in the segment after /users
    is answered by the framework with 400 whatever the method of the
    request, and no handler runs; the router gives that answer in no
    other case. *)
Theorem malformed_escape_is_bad_request (m : Routes.Method) (path : string) :
  Routes.dispatch m path = Routes.BadRequest <->
  exists s1 s2,
    Routes.segments path = [s1; s2] /\ JS.toLowerCase s1 = "users" /\
    JS.decodeURIComponent s2 = JS.Malformed.
Proof.
  unfold Routes.dispatch.
  destruct (segments_cases (Routes.segments path))
    as [(s1 & -> & E)|[(s1 & s2 & -> & E & Hne)|[H1 H2]]].
  - rewrite (dispatchIn_one m s1 E). split.
    + destruct m; discriminate.
    + intros (? & ? & [=] & _).
  - rewrite (dispatchIn_two m s1 s2 E Hne). split.
    + intros H. exists s1, s2. split; [reflexivity|]. split; [exact E|].
      destruct (String.eqb_spec (JS.toLowerCase s2) "search") as [Es|Ns].
      * rewrite (search_decodes _ Es) in H. destruct m; discriminate H.
      * cbn [andb] in H.
        destruct (JS.decodeURIComponent s2); [|reflexivity|]; destruct m; discriminate H.
    + intros (? & ? & [= <- <-] & _ & Hd).
      destruct (String.eqb_spec (JS.toLowerCase s2) "search") as [Es|Ns].
      * rewrite (search_decodes _ Es) in Hd. discriminate Hd.
      * cbn [andb]. rewrite Hd. reflexivity.
  - rewrite (dispatchIn_other m _ H1 H2). split; [discriminate|].
    intros (s1 & s2 & Hsegs & E & Hd).
    destruct (H2 s1 s2 Hsegs) as [N| ->]; [exfalso; exact (N E)|discriminate Hd].
Qed.

Lemma malformed_escape_is_bad_request_witness :
  Routes.dispatch Routes.POST "/users/%zz" = Routes.BadRequest.
Proof.
  apply (proj2 (malformed_escape_is_bad_request Routes.POST "/users/%zz")).
  exists "users", "%zz". repeat split; reflexivity.
Defined.
